(** * The multi-protocol naming-service dispatcher of [src/Resolution.ts]

    A shallow embedding of the [Resolution] class: its constructor, the
    backend selector ([getNamingMethod], [getNamingMethodOrThrow]) and the
    public operations built on it, followed by the properties of the
    dispatcher.

    Conventions of the embedding.
    - A synchronous JavaScript call either returns or throws: [completion].
    - An [async] function returns a promise, which is fulfilled, rejected or
      never settles: [promise].  A [throw] in the body of an [async] function
      rejects the promise it returns ([async]).
    - The backends ([./ens], [./zns], [./cns], [./unstoppableAPI]) are
      external collaborators; the dispatcher sees them through the
      [NamingService] interface, a record of operations.  Their answers for
      a given domain stand for the state of the network at the time of the
      call.
    - The per-protocol configuration object given to the constructor lives in
      a heap of objects, since the constructor writes into it. *)

From Stdlib Require Import Ascii.
From stdpp Require Import gmap strings list fin_maps.

Local Open Scope string_scope.

(** ** Errors ([./resolutionError]) *)

(** Modelled from the spec: the error codes of [ResolutionErrorCode], whose
    module is not among the sources; section 7 of the specification lists
    them. *)
Inductive ResolutionErrorCode :=
  | UnsupportedDomain
  | UnsupportedNetwork
  | UnregisteredDomain
  | UnspecifiedCurrency
  | RecordNotFound.

(** What a JavaScript [throw] can carry, as far as the dispatcher tells
    errors apart: a [ResolutionError] with its code and context object, the
    [TypeError] of a property read on [undefined], or an error of any other
    class (a transport failure, say). *)
Inductive JsError :=
  | ResolutionError (code : ResolutionErrorCode) (context : gmap string string)
  | TypeError (message : string)
  | OtherError (name message : string).

(** [error instanceof ResolutionError] *)
Definition instanceof_ResolutionError (error : JsError) : bool :=
  match error with
  | ResolutionError _ _ => true
  | _ => false
  end.

(** ** Synchronous completions and promises *)

Inductive completion (A : Type) :=
  | Return (a : A)
  | Throw (e : JsError).
Arguments Return {A} a.
Arguments Throw {A} e.

Inductive promise (A : Type) :=
  | Fulfilled (a : A)
  | Rejected (e : JsError)
  | Pending.
Arguments Fulfilled {A} a.
Arguments Rejected {A} e.
Arguments Pending {A}.

#[global] Instance completion_ret : MRet completion := @Return.
#[global] Instance completion_bind : MBind completion := λ A B k c,
  match c with
  | Return a => k a
  | Throw e => Throw e
  end.

#[global] Instance promise_ret : MRet promise := @Fulfilled.
#[global] Instance promise_bind : MBind promise := λ A B k p,
  match p with
  | Fulfilled a => k a
  | Rejected e => Rejected e
  | Pending => Pending
  end.
#[global] Instance promise_fmap : FMap promise := λ A B f p,
  match p with
  | Fulfilled a => Fulfilled (f a)
  | Rejected e => Rejected e
  | Pending => Pending
  end.

(** A synchronous step in the body of an [async] function: what it returns
    is carried on, what it throws rejects the function's promise. *)
Definition async {A} (c : completion A) : promise A :=
  match c with
  | Return a => Fulfilled a
  | Throw e => Rejected e
  end.

(** [await p]: the body continues with the value [p] is fulfilled with, is
    rejected with the error [p] is rejected with, and never continues when
    [p] never settles.  With [promise_bind] this is [p] itself. *)
Definition await {A} (p : promise A) : promise A := p.

(** [try { ... } catch (error) { ... }] around awaited code. *)
Definition try_catch {A} (body : promise A) (handler : JsError → promise A)
  : promise A :=
  match body with
  | Rejected error => handler error
  | settled => settled
  end.

(** [object.name] where [object] may be [undefined].  The wording of the
    message is the engine's; the dispatcher looks at the class alone. *)
Definition property_of {A} (object : option A) (name : string) : completion A :=
  match object with
  | Some a => Return a
  | None => Throw (TypeError ("Cannot read property '" +:+ name +:+ "' of undefined"))
  end.

(** Whether a promise is rejected with a [ResolutionError]. *)
Definition rejected_with_ResolutionError {A} (p : promise A) : bool :=
  match p with
  | Rejected e => instanceof_ResolutionError e
  | _ => false
  end.

(** The two values [isSupportedDomainInNetwork] can produce. *)
Inductive JsValue :=
  | JsUndefined
  | JsBoolean (b : bool).

Definition truthy (v : JsValue) : bool :=
  match v with
  | JsUndefined => false
  | JsBoolean b => b
  end.

(** ** Types ([./types]) *)

Module Types.

Record Meta := {
  owner : option string;
  (* further metadata, which the dispatcher never reads *)
  extra : gmap string string;
}.

Record ResolutionResponse := {
  addresses : gmap string string;
  meta : Meta;
}.

(** Modelled from the spec: the constant [UnclaimedDomainResponse] of
    [./types], which is not among the sources.  The specification gives it as
    [{ addresses: {}, meta: { owner: null } }], and the test
    'provides empty response constant' checks these two fields. *)
Definition UnclaimedDomainResponse : ResolutionResponse :=
  {| addresses := ∅; meta := {| owner := None; extra := ∅ |} |}.

Record API := { url : string }.

(** A per-protocol source: [true], [false], or a [{url, network}] pair. *)
Inductive NamingServiceSource :=
  | SourceBoolean (b : bool)
  | SourceDefinition (url network : string).

(** The [blockchain] option: a boolean, or a reference to a per-protocol
    object ([{ens?, zns?, cns?}]) owned by the caller. *)
Inductive Blockchain :=
  | BlockchainBoolean (b : bool)
  | BlockchainObject (l : positive).

End Types.

(** ** The capability interface ([./namingService]) *)

Module NamingService.

Record t := {
  isSupportedDomain : string → bool;
  isSupportedNetwork : bool;
  resolve : string → promise (option Types.ResolutionResponse);
  address : string → string → promise string;
  owner : string → promise (option string);
  record : string → string → promise string;
  namehash : string → completion string;
  serviceName : string → completion string;
}.

End NamingService.

(** The ENS backend has one operation more than the common interface. *)
Module Ens.

Record t := {
  base :> NamingService.t;
  reverse : string → string → promise string;
}.

End Ens.

(** ** The heap of configuration objects *)

(** A per-protocol configuration object maps its field names ([ens], [zns],
    [cns]) to sources; a field that is absent reads as [undefined] ([None]). *)
Abbreviation ConfigObject := (gmap string Types.NamingServiceSource).
Abbreviation Heap := (gmap positive (gmap string Types.NamingServiceSource)).

(** Code that reads and writes objects: a state monad over the heap.  It has
    no result only on a reference to no object, which a JavaScript program
    cannot hold. *)
Definition Js (A : Type) : Type := Heap → option (A * Heap).

#[global] Instance Js_ret : MRet Js := λ A a h, Some (a, h).
#[global] Instance Js_bind : MBind Js := λ A B k c h,
  match c h with
  | Some (a, h') => k a h'
  | None => None
  end.

(** [{...}]: a fresh object. *)
Definition alloc (o : ConfigObject) : Js positive := λ h,
  let l := fresh (dom h) in Some (l, <[l := o]> h).

(** [object.field] *)
Definition get_field (l : positive) (field : string)
  : Js (option Types.NamingServiceSource) := λ h,
  match h !! l with
  | Some o => Some (o !! field, h)
  | None => None
  end.

(** [object.field = value] *)
Definition set_field (l : positive) (field : string)
  (value : Types.NamingServiceSource) : Js unit := λ h,
  match h !! l with
  | Some o => Some ((), <[l := <[field := value]> o]> h)
  | None => None
  end.

(** Truthiness of a field value: [undefined] and [false] are falsy, [true]
    and an object are truthy. *)
Definition source_truthy (v : option Types.NamingServiceSource) : bool :=
  match v with
  | None => false
  | Some (Types.SourceBoolean b) => b
  | Some (Types.SourceDefinition _ _) => true
  end.

(** Truthiness of the [blockchain] option: an object is truthy. *)
Definition blockchain_truthy (b : Types.Blockchain) : bool :=
  match b with
  | Types.BlockchainBoolean b => b
  | Types.BlockchainObject _ => true
  end.

(** ** The backends' constructors *)

(** The classes [Ens], [Zns], [Cns] and [Udapi] and the constant [DefaultAPI]
    are imported by [Resolution.ts] from modules that are not among the
    sources; the dispatcher is parametric in them. *)
Class Backends := {
  Ens_new : Types.NamingServiceSource → Ens.t;
  Zns_new : Types.NamingServiceSource → NamingService.t;
  Cns_new : Types.NamingServiceSource → NamingService.t;
  Udapi_new : string → NamingService.t;
  DefaultAPI : Types.API;
}.

(** ** The dispatcher ([./Resolution]) *)

Module Resolution.

Record t := {
  blockchain : bool;
  ens : option Ens.t;
  zns : option NamingService.t;
  cns : option NamingService.t;
  api : option NamingService.t;
}.

(** The argument of the constructor, [{ blockchain?, api? }]. *)
Record Options := {
  opt_blockchain : option Types.Blockchain;
  opt_api : option Types.API;
}.

Definition set_ens (this : t) (e : Ens.t) : t :=
  {| blockchain := blockchain this; ens := Some e; zns := zns this;
     cns := cns this; api := api this |}.
Definition set_zns (this : t) (z : NamingService.t) : t :=
  {| blockchain := blockchain this; ens := ens this; zns := Some z;
     cns := cns this; api := api this |}.
Definition set_cns (this : t) (c : NamingService.t) : t :=
  {| blockchain := blockchain this; ens := ens this; zns := zns this;
     cns := Some c; api := api this |}.
Definition set_api (this : t) (a : NamingService.t) : t :=
  {| blockchain := blockchain this; ens := ens this; zns := zns this;
     cns := cns this; api := Some a |}.

(** [if (object.field === undefined) object.field = true] *)
Definition default_field (l : positive) (field : string) : Js unit :=
  v ← get_field l field;
  match v with
  | None => set_field l field (Types.SourceBoolean true)
  | Some _ => mret ()
  end.

(** [if (object.field) this = build(object.field)] *)
Definition construct_if {B} (l : positive) (field : string)
  (build : t → B → t) (new : Types.NamingServiceSource → B) (this : t) : Js t :=
  v ← get_field l field;
  match v with
  | Some source => mret (if source_truthy v then build this (new source) else this)
  | None => mret this
  end.

Section constructor.
Context {backends : Backends}.

(** Lines 39-66.  The parameter is [{ blockchain = true, api = DefaultAPI } = {}]:
    an absent argument, and an absent field of it, take their defaults. *)
Definition constructor (options : option Options) : Js t :=
  let blockchain := default (Types.BlockchainBoolean true) (options ≫= opt_blockchain) in
  let api := default DefaultAPI (options ≫= opt_api) in
  (* this.blockchain = !!blockchain *)
  let this := {| blockchain := blockchain_truthy blockchain;
                 ens := None; zns := None; cns := None; api := None |} in
  if blockchain_truthy blockchain then
    (* if (blockchain == true) blockchain = {}: of the truthy values only
       the boolean is loosely equal to true, an object is not *)
    l ← match blockchain with
        | Types.BlockchainBoolean _ => alloc ∅
        | Types.BlockchainObject l => mret l
        end;
    default_field l "ens";;
    default_field l "zns";;
    default_field l "cns";;
    this ← construct_if l "ens" set_ens Ens_new this;
    this ← construct_if l "zns" set_zns Zns_new this;
    this ← construct_if l "cns" set_cns Cns_new this;
    mret this
  else
    mret (set_api this (Udapi_new (Types.url api))).

End constructor.

(** Lines 214-222.  The candidates are [this.ens, this.zns, this.cns] or
    [this.api], each possibly [undefined]. *)
Definition methods (this : t) : list (option NamingService.t) :=
  if blockchain this
  then [Ens.base <$> ens this; zns this; cns this]
  else [api this].

(** [method && method.isSupportedDomain(domain)] *)
Definition supports (domain : string) (method : option NamingService.t) : bool :=
  match method with
  | Some m => NamingService.isSupportedDomain m domain
  | None => false
  end.

(** [Array.prototype.find] gives the first element the predicate holds of,
    or [undefined]; an element [supports] holds of is a backend. *)
Definition getNamingMethod (this : t) (domain : string) : option NamingService.t :=
  let method := find (supports domain) (methods this) in
  mjoin method.

(** Lines 224-231. *)
Definition getNamingMethodOrThrow (this : t) (domain : string)
  : completion NamingService.t :=
  let method := getNamingMethod this domain in
  match method with
  | None => Throw (ResolutionError UnsupportedDomain {[ "domain" := domain ]})
  | Some m => Return m
  end.

(** Lines 74-78.  [result || UnclaimedDomainResponse]: a response object is
    truthy, [null] is not. *)
Definition resolve (this : t) (domain : string) : promise Types.ResolutionResponse :=
  method ← async (getNamingMethodOrThrow this domain);
  result ← await (NamingService.resolve method domain);
  mret (default Types.UnclaimedDomainResponse result).

(** Lines 150-156. *)
Definition addressOrThrow (this : t) (domain currencyTicker : string)
  : promise string :=
  method ← async (getNamingMethodOrThrow this domain);
  await (NamingService.address method domain currencyTicker).

(** Lines 87-100. *)
Definition address (this : t) (domain currencyTicker : string)
  : promise (option string) :=
  try_catch
    (Some <$> await (addressOrThrow this domain currencyTicker))
    (λ error,
       if instanceof_ResolutionError error then mret None else Rejected error).

(** Lines 108-113. *)
Definition ipfsHash (this : t) (domain : string) : promise string :=
  method ← async (getNamingMethodOrThrow this domain);
  await (NamingService.record method domain "ipfs.html.value").

(** Lines 121-126. *)
Definition ipfsRedirect (this : t) (domain : string) : promise string :=
  method ← async (getNamingMethodOrThrow this domain);
  await (NamingService.record method domain "ipfs.redirect_domain.value").

(** Lines 134-139. *)
Definition email (this : t) (domain : string) : promise string :=
  method ← async (getNamingMethodOrThrow this domain);
  await (NamingService.record method domain "whois.email.value").

(** [value || null] on a string or [null]: the empty string is falsy. *)
Definition or_null (value : option string) : option string :=
  match value with
  | Some "" => None
  | other => other
  end.

(** Lines 163-166.  [method] is read without a test: [method.owner] on
    [undefined] is a [TypeError]. *)
Definition owner (this : t) (domain : string) : promise (option string) :=
  let method := getNamingMethod this domain in
  m ← async (property_of method "owner");
  result ← await (NamingService.owner m domain);
  mret (or_null result).

(** Lines 175-177. *)
Definition reverse (this : t) (address currencyTicker : string) : promise string :=
  e ← async (property_of (ens this) "reverse");
  await (Ens.reverse e address currencyTicker).

(** Lines 185-187: not an [async] function. *)
Definition namehash (this : t) (domain : string) : completion string :=
  method ← getNamingMethodOrThrow this domain;
  NamingService.namehash method domain.

(** Lines 193-195. [!!method] *)
Definition isSupportedDomain (this : t) (domain : string) : completion bool :=
  Return (bool_decide (is_Some (getNamingMethod this domain))).

(** Lines 201-204. [method && method.isSupportedNetwork()] *)
Definition isSupportedDomainInNetwork (this : t) (domain : string)
  : completion JsValue :=
  let method := getNamingMethod this domain in
  match method with
  | None => Return JsUndefined
  | Some m => Return (JsBoolean (NamingService.isSupportedNetwork m))
  end.

(** Lines 206-208. *)
Definition serviceName (this : t) (domain : string) : completion string :=
  method ← getNamingMethodOrThrow this domain;
  NamingService.serviceName method domain.

End Resolution.

(** ** A sample world *)

(** Backends to run the dispatcher on.  They answer as the repository's tests
    expect of the real ones. *)
Module Sample.

(** The extension of a domain: what follows its last dot; the empty string
    when it has none. *)
Fixpoint extension_from (found domain : string) : string :=
  match domain with
  | EmptyString => found
  | String c rest =>
      if Ascii.eqb c "."%char then extension_from rest rest
      else extension_from found rest
  end.

Definition extension (domain : string) : string := extension_from "" domain.

Definition has_extension (extensions : list string) (domain : string) : bool :=
  bool_decide (extension domain ∈ extensions).

Definition error (code : ResolutionErrorCode) (domain : string) : JsError :=
  ResolutionError code {[ "domain" := domain ]}.

Definition brad : Types.ResolutionResponse :=
  {| Types.addresses := {[ "ZIL" := "zil1yu5u4hegy9v3xgluweg4en54zm8f8auwxu0xxj" ]};
     Types.meta := {| Types.owner := Some "0x2d418942dce1afa02d0733a2000c71b371a6ac07";
                      Types.extra := ∅ |} |}.

(** Modelled from the spec: the ZNS backend of [./zns], which is not among
    the sources.  It recognises [*.zil]; [brad.zil] is claimed and has an
    IPFS hash but no email, [ergergergerg.zil] has an email, and any other
    name is unclaimed. *)
Definition zns (source : Types.NamingServiceSource) : NamingService.t :=
  {| NamingService.isSupportedDomain := has_extension ["zil"];
     NamingService.isSupportedNetwork := true;
     NamingService.resolve domain :=
       Fulfilled (if String.eqb domain "brad.zil" then Some brad else None);
     NamingService.address domain ticker :=
       if String.eqb domain "brad.zil" then
         match Types.addresses brad !! ticker with
         | Some a => Fulfilled a
         | None => Rejected (error UnspecifiedCurrency domain)
         end
       else Rejected (error UnregisteredDomain domain);
     NamingService.owner domain :=
       Fulfilled (if String.eqb domain "brad.zil"
                  then Types.owner (Types.meta brad) else None);
     NamingService.record domain key :=
       if String.eqb domain "brad.zil" && String.eqb key "ipfs.html.value"
       then Fulfilled "QmVaAtQbi3EtsfpKoLzALm6vXphdi2KjMgxEDKeGg6wHuK"
       else if String.eqb domain "ergergergerg.zil" && String.eqb key "whois.email.value"
       then Fulfilled "matt+test@unstoppabledomains.com"
       else Rejected (error RecordNotFound domain);
     NamingService.namehash domain := Return ("zns:" +:+ domain);
     NamingService.serviceName _ := Return "ZNS" |}.

(** Modelled from the spec: a backend on which every name of its extensions
    is unclaimed, for [./cns] and the common part of [./ens]. *)
Definition unclaimed (label : string) (extensions : list string)
  : NamingService.t :=
  {| NamingService.isSupportedDomain := has_extension extensions;
     NamingService.isSupportedNetwork := true;
     NamingService.resolve _ := Fulfilled None;
     NamingService.address domain _ := Rejected (error UnregisteredDomain domain);
     NamingService.owner _ := Fulfilled None;
     NamingService.record domain _ := Rejected (error RecordNotFound domain);
     NamingService.namehash domain := Return (label +:+ ":" +:+ domain);
     NamingService.serviceName _ := Return label |}.

(** Modelled from the spec: the ENS backend of [./ens]; no address has a
    reverse record on it. *)
Definition ens (source : Types.NamingServiceSource) : Ens.t :=
  {| Ens.base := unclaimed "ENS" ["eth"; "luxe"; "xyz"];
     Ens.reverse address _ := Rejected (OtherError "Error" ("no reverse record for " +:+ address)) |}.

Definition cns (source : Types.NamingServiceSource) : NamingService.t :=
  unclaimed "CNS" ["crypto"].

(** Modelled from the spec: the proxy of [./unstoppableAPI]; it recognises
    the extensions of the three protocols and names the protocol of each. *)
Definition udapi (url : string) : NamingService.t :=
  {| NamingService.isSupportedDomain :=
       has_extension ["eth"; "luxe"; "xyz"; "zil"; "crypto"];
     NamingService.isSupportedNetwork := true;
     NamingService.resolve _ := Fulfilled None;
     NamingService.address domain _ := Rejected (error UnregisteredDomain domain);
     NamingService.owner _ := Fulfilled None;
     NamingService.record domain _ := Rejected (error RecordNotFound domain);
     NamingService.namehash domain := Return ("api:" +:+ domain);
     NamingService.serviceName domain :=
       Return (if has_extension ["zil"] domain then "ZNS"
               else if has_extension ["crypto"] domain then "CNS"
               else "ENS") |}.

#[export] Instance backends : Backends :=
  {| Ens_new := ens; Zns_new := zns; Cns_new := cns; Udapi_new := udapi;
     DefaultAPI := {| Types.url := "https://unstoppabledomains.com/api/v1" |} |}.

(** [new Resolution()] *)
Definition direct : Resolution.t :=
  {| Resolution.blockchain := true;
     Resolution.ens := Some (ens (Types.SourceBoolean true));
     Resolution.zns := Some (zns (Types.SourceBoolean true));
     Resolution.cns := Some (cns (Types.SourceBoolean true));
     Resolution.api := None |}.

(** [new Resolution({blockchain: false})] *)
Definition proxy : Resolution.t :=
  {| Resolution.blockchain := false;
     Resolution.ens := None; Resolution.zns := None; Resolution.cns := None;
     Resolution.api := Some (udapi "https://unstoppabledomains.com/api/v1") |}.

(** [new Resolution({blockchain: {ens: false, cns: false}})] *)
Definition zns_only : Resolution.t :=
  {| Resolution.blockchain := true;
     Resolution.ens := None;
     Resolution.zns := Some (zns (Types.SourceBoolean true));
     Resolution.cns := None;
     Resolution.api := None |}.

(** The per-protocol object [{ens: false, zns: {url, network}}]. *)
Definition partial : gmap string Types.NamingServiceSource :=
  {[ "ens" := Types.SourceBoolean false;
     "zns" := Types.SourceDefinition "https://api.zilliqa.com" "mainnet" ]}.

End Sample.

(** ** The test helper ([utils/testHelpers]) *)

Module TestHelpers.

(** The first argument of [expectResolutionErrorCode]: a promise, or a
    function, whose call without arguments returns a value or throws. *)
Inductive Callback (A : Type) :=
  | CallbackPromise (p : promise A)
  | CallbackFunction (call : completion A).
Arguments CallbackPromise {A} p.
Arguments CallbackFunction {A} call.

(** What a failed [expect] throws; the text names the matcher. *)
Definition assertion_error (matcher : string) : JsError :=
  OtherError "JestAssertionError" matcher.

(** [expect(received).toEqual(expected)] on two strings. *)
Definition expect_toEqual (received expected : string) : completion unit :=
  if String.eqb received expected
  then Return ()
  else Throw (assertion_error "expect(received).toEqual(expected)").

(** [expect(true).toBeFalsy()] *)
Definition expect_true_toBeFalsy : completion unit :=
  Throw (assertion_error "expect(received).toBeFalsy()").

Section helpers.

(** [error.code]: the string a member of [ResolutionErrorCode] stands for.
    The enumeration is declared in [./resolutionError], which is not among
    the sources. *)
Variable code_string : ResolutionErrorCode → string.

(** Lines 28-46 of the helpers.  The [try] block awaits the promise, or
    calls the function and drops what it returns; the [catch] block returns
    from the helper or throws; line 45 is reached when the [try] block
    completes. *)
Definition expectResolutionErrorCode {A} (callback : Callback A) (code : string)
  : promise unit :=
  let attempt : promise unit :=
    match callback with
    | CallbackPromise p => _ ← await p; mret ()
    | CallbackFunction call => _ ← async call; mret ()
    end in
  match attempt with
  | Rejected error =>
      match error with
      | ResolutionError error_code _ =>
          (* error instanceof ResolutionError *)
          async (expect_toEqual (code_string error_code) code)
      | _ => Rejected error
      end
  | Fulfilled _ => async expect_true_toBeFalsy
  | Pending => Pending
  end.

End helpers.

(** The error [callback] fails with: the one its promise is rejected with,
    or the one its call throws. *)
Definition fails_with {A} (callback : Callback A) (error : JsError) : Prop :=
  match callback with
  | CallbackPromise p => p = Rejected error
  | CallbackFunction call => call = Throw error
  end.

(** Modelled from the spec: the strings of the members of
    [ResolutionErrorCode], each its own name as in section 7 of the
    specification; for running the helper. *)
Definition code_name (code : ResolutionErrorCode) : string :=
  match code with
  | UnsupportedDomain => "UnsupportedDomain"
  | UnsupportedNetwork => "UnsupportedNetwork"
  | UnregisteredDomain => "UnregisteredDomain"
  | UnspecifiedCurrency => "UnspecifiedCurrency"
  | RecordNotFound => "RecordNotFound"
  end.

End TestHelpers.

(** ** Specification-level notions *)

Import Resolution.

(** The claim of first-match selection, in the specification's words:
    [selected] is the first of [candidates], in order, that is configured
    and supports [domain]; when there is none, nothing is selected. *)
Definition first_supported (domain : string)
  (candidates : list (option NamingService.t))
  (selected : option NamingService.t) : Prop :=
  match selected with
  | Some m =>
      ∃ skipped rest,
        candidates = (skipped ++ Some m :: rest)%list
        ∧ NamingService.isSupportedDomain m domain = true
        ∧ forallb (λ c, negb (supports domain c)) skipped = true
  | None => forallb (λ c, negb (supports domain c)) candidates = true
  end.

(** First-match selection stated on the backends alone: [selected] is a
    backend of [candidates] whose [isSupportedDomain(domain)] is true, and
    every backend before it in the order answers false (an entry that
    holds no backend is passed over); nothing is selected exactly when every
    backend among the candidates answers false. *)
Definition selects_first (domain : string)
  (candidates : list (option NamingService.t))
  (selected : option NamingService.t) : Prop :=
  match selected with
  | Some m =>
      ∃ skipped rest,
        candidates = (skipped ++ Some m :: rest)%list
        ∧ NamingService.isSupportedDomain m domain = true
        ∧ ∀ m', Some m' ∈ skipped →
                NamingService.isSupportedDomain m' domain = false
  | None =>
      ∀ m, Some m ∈ candidates → NamingService.isSupportedDomain m domain = false
  end.

(** Two dispatchers answer alike on [domain], in every operation that goes
    through the selector. *)
Definition same_answers (this this' : t) (domain : string) : Prop :=
  resolve this domain = resolve this' domain
  ∧ (∀ ticker, address this domain ticker = address this' domain ticker)
  ∧ (∀ ticker, addressOrThrow this domain ticker = addressOrThrow this' domain ticker)
  ∧ owner this domain = owner this' domain
  ∧ ipfsHash this domain = ipfsHash this' domain
  ∧ ipfsRedirect this domain = ipfsRedirect this' domain
  ∧ email this domain = email this' domain
  ∧ namehash this domain = namehash this' domain
  ∧ serviceName this domain = serviceName this' domain
  ∧ isSupportedDomain this domain = isSupportedDomain this' domain
  ∧ isSupportedDomainInNetwork this domain = isSupportedDomainInNetwork this' domain.

(** What the constructor makes of a field of the per-protocol object, in the
    specification's words: absent is enabled with the default endpoint,
    [false] is disabled, anything else is enabled as given. *)
Definition enabled (field : option Types.NamingServiceSource)
  : option Types.NamingServiceSource :=
  match field with
  | None => Some (Types.SourceBoolean true)
  | Some (Types.SourceBoolean false) => None
  | Some source => Some source
  end.

(** The per-protocol object after lines 45-53. *)
Definition default_in (field : string) (o : gmap string Types.NamingServiceSource)
  : gmap string Types.NamingServiceSource :=
  match o !! field with
  | None => <[field := Types.SourceBoolean true]> o
  | Some _ => o
  end.

Definition with_defaults (o : gmap string Types.NamingServiceSource)
  : gmap string Types.NamingServiceSource :=
  default_in "cns" (default_in "zns" (default_in "ens" o)).

Section instances.
Context {backends : Backends}.

(** Lines 45-62, on the object at [l]. *)
Definition from_object (l : positive) (this : t) : Js t :=
  default_field l "ens";;
  default_field l "zns";;
  default_field l "cns";;
  this ← construct_if l "ens" set_ens Ens_new this;
  this ← construct_if l "zns" set_zns Zns_new this;
  this ← construct_if l "cns" set_cns Cns_new this;
  mret this.

Definition direct_instance (o : gmap string Types.NamingServiceSource) : t :=
  {| blockchain := true;
     ens := Ens_new <$> enabled (o !! "ens");
     zns := Zns_new <$> enabled (o !! "zns");
     cns := Cns_new <$> enabled (o !! "cns");
     api := None |}.

Definition proxy_instance (a : option Types.API) : t :=
  {| blockchain := false; ens := None; zns := None; cns := None;
     api := Some (Udapi_new (Types.url (default DefaultAPI a))) |}.

End instances.

(** * Properties *)

(** ** Selection *)

Lemma find_first {A} (p : A → bool) (l : list A) :
  match find p l with
  | Some x =>
      ∃ skipped rest,
        l = (skipped ++ x :: rest)%list ∧ p x = true
        ∧ forallb (λ y, negb (p y)) skipped = true
  | None => forallb (λ y, negb (p y)) l = true
  end.
Proof.
  induction l as [|y l IH]; simpl; [done|].
  destruct (p y) eqn:Hy.
  - by exists [], l.
  - destruct (find p l) as [x|]; simpl.
    + destruct IH as (skipped & rest & -> & Hx & Hskip).
      exists (y :: skipped), rest. simpl. by rewrite Hy.
    + done.
Qed.

Lemma getNamingMethod_first (this : t) (domain : string) :
  first_supported domain (methods this) (getNamingMethod this domain).
Proof.
  unfold getNamingMethod.
  pose proof (find_first (supports domain) (methods this)) as Hf.
  destruct (find (supports domain) (methods this)) as [[m|]|]; simpl.
  - destruct Hf as (skipped & rest & Hl & Hm & Hskip). by exists skipped, rest.
  - by destruct Hf as (? & ? & _ & ? & _).
  - done.
Qed.

Lemma unsupported_by_all (this : t) (domain : string) :
  (∀ m, Some m ∈ methods this → NamingService.isSupportedDomain m domain = false)
  ↔ forallb (λ c, negb (supports domain c)) (methods this) = true.
Proof.
  rewrite forallb_forall. split.
  - intros Hall [m|] Hin; simpl; [|done].
    rewrite Hall; [done|]. by apply list_elem_of_In.
  - intros Hall m Hin. apply list_elem_of_In, Hall in Hin.
    simpl in Hin. by destruct (NamingService.isSupportedDomain m domain).
Qed.

Lemma getNamingMethod_None (this : t) (domain : string) :
  getNamingMethod this domain = None
  ↔ ∀ m, Some m ∈ methods this → NamingService.isSupportedDomain m domain = false.
Proof.
  rewrite unsupported_by_all.
  pose proof (getNamingMethod_first this domain) as Hf.
  destruct (getNamingMethod this domain) as [m|]; simpl in Hf.
  - split; [done|]. intros Hall.
    destruct Hf as (skipped & rest & Hl & Hm & _).
    rewrite Hl, forallb_app in Hall. simpl in Hall. rewrite Hm in Hall.
    simpl in Hall. by rewrite andb_false_r in Hall.
  - done.
Qed.

Lemma getNamingMethodOrThrow_None (this : t) (domain : string) :
  getNamingMethod this domain = None →
  getNamingMethodOrThrow this domain
  = Throw (ResolutionError UnsupportedDomain {[ "domain" := domain ]}).
Proof. unfold getNamingMethodOrThrow. by intros ->. Qed.

Lemma getNamingMethodOrThrow_Some (this : t) (domain : string) m :
  getNamingMethod this domain = Some m →
  getNamingMethodOrThrow this domain = Return m.
Proof. unfold getNamingMethodOrThrow. by intros ->. Qed.

Lemma same_selection_same_answers (this this' : t) (domain : string) :
  getNamingMethod this' domain = getNamingMethod this domain →
  same_answers this this' domain.
Proof.
  intros Hsel.
  unfold same_answers, resolve, address, addressOrThrow, owner, ipfsHash,
    ipfsRedirect, email, namehash, serviceName, isSupportedDomain,
    isSupportedDomainInNetwork, getNamingMethodOrThrow.
  rewrite Hsel. repeat split.
Qed.

Lemma forallb_unsupported (domain : string)
  (candidates : list (option NamingService.t)) :
  forallb (λ c, negb (supports domain c)) candidates = true
  ↔ ∀ m, Some m ∈ candidates → NamingService.isSupportedDomain m domain = false.
Proof.
  rewrite forallb_forall. split.
  - intros Hall m Hin. apply list_elem_of_In, Hall in Hin.
    simpl in Hin. by destruct (NamingService.isSupportedDomain m domain).
  - intros Hall [m|] Hin; simpl; [|done].
    rewrite Hall; [done|]. by apply list_elem_of_In.
Qed.

Lemma find_after_unsupported (domain : string) m
  (skipped rest : list (option NamingService.t)) :
  NamingService.isSupportedDomain m domain = true →
  (∀ m', Some m' ∈ skipped → NamingService.isSupportedDomain m' domain = false) →
  find (supports domain) (skipped ++ Some m :: rest)%list = Some (Some m).
Proof.
  intros Hm. induction skipped as [|c skipped IH]; intros Hskip; simpl.
  - by rewrite Hm.
  - assert (supports domain c = false) as ->.
    { destruct c as [m'|]; simpl; [|done]. apply Hskip. by left. }
    apply IH. intros m' Hin. apply Hskip. by right.
Qed.

Lemma find_all_unsupported (domain : string)
  (candidates : list (option NamingService.t)) :
  (∀ m, Some m ∈ candidates → NamingService.isSupportedDomain m domain = false) →
  find (supports domain) candidates = None.
Proof.
  induction candidates as [|c candidates IH]; intros Hall; simpl; [done|].
  assert (supports domain c = false) as ->.
  { destruct c as [m|]; simpl; [|done]. apply Hall. by left. }
  apply IH. intros m Hin. apply Hall. by right.
Qed.

(** The selector computes first-match selection, and nothing else does. *)
Lemma getNamingMethod_selects_first (this : t) (domain : string) selected :
  getNamingMethod this domain = selected
  ↔ selects_first domain (methods this) selected.
Proof.
  split.
  - intros <-. pose proof (getNamingMethod_first this domain) as Hfirst.
    unfold first_supported, selects_first in *.
    destruct (getNamingMethod this domain) as [m|].
    + destruct Hfirst as (skipped & rest & Hl & Hm & Hskip).
      exists skipped, rest. by rewrite <- forallb_unsupported.
    + by apply forallb_unsupported.
  - unfold getNamingMethod. destruct selected as [m|]; simpl.
    + intros (skipped & rest & -> & Hm & Hskip).
      by rewrite (find_after_unsupported _ _ _ _ Hm Hskip).
    + intros Hall. by rewrite (find_all_unsupported _ _ Hall).
Qed.

(** ** The heap monad and the constructor *)

Lemma Js_bind_Some {A B} (c : Js A) (k : A → Js B) (h h' : Heap) (a : A) :
  c h = Some (a, h') → (c ≫= k) h = k a h'.
Proof. unfold mbind, Js_bind. by intros ->. Qed.

Lemma Js_bind_None {A B} (c : Js A) (k : A → Js B) (h : Heap) :
  c h = None → (c ≫= k) h = None.
Proof. unfold mbind, Js_bind. by intros ->. Qed.

Lemma default_field_Some (l : positive) (field : string) (h : Heap) o :
  h !! l = Some o →
  default_field l field h = Some ((), <[l := default_in field o]> h).
Proof.
  intros Hl. unfold default_field, default_in.
  rewrite (Js_bind_Some _ _ h h (o !! field)).
  - destruct (o !! field); simpl.
    + unfold mret, Js_ret. by rewrite insert_id.
    + unfold set_field. by rewrite Hl.
  - unfold get_field. by rewrite Hl.
Qed.

Lemma default_field_None (l : positive) (field : string) (h : Heap) :
  h !! l = None → default_field l field h = None.
Proof.
  intros Hl. unfold default_field. apply Js_bind_None.
  unfold get_field. by rewrite Hl.
Qed.

Lemma construct_if_Some {B} (l : positive) (field : string) build
  (new : Types.NamingServiceSource → B) (this : t) (h : Heap) o :
  h !! l = Some o →
  construct_if l field build new this h
  = Some (match o !! field with
          | Some source =>
              if source_truthy (Some source) then build this (new source) else this
          | None => this
          end, h).
Proof.
  intros Hl. unfold construct_if.
  rewrite (Js_bind_Some _ _ h h (o !! field)).
  - by destruct (o !! field).
  - unfold get_field. by rewrite Hl.
Qed.

Lemma default_in_lookup (field f : string) o :
  default_in field o !! f
  = if decide (field = f)
    then Some (default (Types.SourceBoolean true) (o !! field))
    else o !! f.
Proof.
  unfold default_in. destruct (o !! field) eqn:Hf.
  - case_decide; by simplify_eq.
  - rewrite lookup_insert. by case_decide.
Qed.

Lemma with_defaults_ens o :
  with_defaults o !! "ens" = Some (default (Types.SourceBoolean true) (o !! "ens")).
Proof. unfold with_defaults. by rewrite !default_in_lookup. Qed.

Lemma with_defaults_zns o :
  with_defaults o !! "zns" = Some (default (Types.SourceBoolean true) (o !! "zns")).
Proof. unfold with_defaults. by rewrite !default_in_lookup. Qed.

Lemma with_defaults_cns o :
  with_defaults o !! "cns" = Some (default (Types.SourceBoolean true) (o !! "cns")).
Proof. unfold with_defaults. by rewrite !default_in_lookup. Qed.

Lemma with_defaults_other o (f : string) :
  f ∉ ["ens"; "zns"; "cns"] → with_defaults o !! f = o !! f.
Proof.
  intros Hf. unfold with_defaults. rewrite !default_in_lookup.
  repeat case_decide; try done; subst; exfalso; apply Hf; set_solver.
Qed.

Section constructor_facts.
Context {backends : Backends}.

Lemma from_object_Some (h : Heap) (l : positive) o :
  h !! l = Some o →
  from_object l {| blockchain := true; ens := None; zns := None; cns := None;
                   api := None |} h
  = Some (direct_instance o, <[l := with_defaults o]> h).
Proof.
  intros Hl. unfold from_object.
  rewrite (Js_bind_Some _ _ _ _ () (default_field_Some l "ens" h o Hl)).
  set (o1 := default_in "ens" o).
  rewrite (Js_bind_Some _ _ _ _ ()
             (default_field_Some l "zns" _ o1 (lookup_insert_eq _ _ _))).
  rewrite insert_insert_eq. set (o2 := default_in "zns" o1).
  rewrite (Js_bind_Some _ _ _ _ ()
             (default_field_Some l "cns" _ o2 (lookup_insert_eq _ _ _))).
  rewrite insert_insert_eq. fold (with_defaults o).
  set (h' := <[l := with_defaults o]> h).
  assert (h' !! l = Some (with_defaults o)) as Hl' by apply lookup_insert_eq.
  rewrite (Js_bind_Some _ _ _ _ _ (construct_if_Some l "ens" _ _ _ h' _ Hl')).
  rewrite (Js_bind_Some _ _ _ _ _ (construct_if_Some l "zns" _ _ _ h' _ Hl')).
  rewrite (Js_bind_Some _ _ _ _ _ (construct_if_Some l "cns" _ _ _ h' _ Hl')).
  rewrite with_defaults_ens, with_defaults_zns, with_defaults_cns.
  unfold mret, Js_ret, direct_instance. f_equal. f_equal.
  destruct (o !! "ens") as [[[]|]|], (o !! "zns") as [[[]|]|],
    (o !! "cns") as [[[]|]|]; reflexivity.
Qed.

(** The constructor on a per-protocol object: the instance it builds and the
    heap it leaves. *)
Lemma constructor_object (h : Heap) (l : positive) o (a : option Types.API) :
  h !! l = Some o →
  constructor
    (Some {| opt_blockchain := Some (Types.BlockchainObject l); opt_api := a |}) h
  = Some (direct_instance o, <[l := with_defaults o]> h).
Proof.
  intros Hl. change (constructor _) with
    (mret l ≫= λ l, from_object l {| blockchain := true; ens := None;
                                      zns := None; cns := None; api := None |}).
  rewrite (Js_bind_Some _ _ h h l) by done. by apply from_object_Some.
Qed.

Lemma constructor_dangling (h : Heap) (l : positive) (a : option Types.API) :
  h !! l = None →
  constructor
    (Some {| opt_blockchain := Some (Types.BlockchainObject l); opt_api := a |}) h
  = None.
Proof.
  intros Hl. unfold constructor. simpl.
  rewrite (Js_bind_Some _ _ h h l) by done.
  by rewrite (Js_bind_None _ _ _ (default_field_None l "ens" h Hl)).
Qed.

(** The constructor without a [blockchain] option, or with [true]: the
    object it fills is a fresh one. *)
Lemma constructor_default (h : Heap) (options : option Options) :
  default (Types.BlockchainBoolean true) (options ≫= opt_blockchain)
  = Types.BlockchainBoolean true →
  constructor options h
  = Some (direct_instance ∅, <[fresh (dom h) := with_defaults ∅]> h).
Proof.
  intros Hb. unfold constructor. rewrite Hb. simpl.
  change (mbind ?k (alloc ∅) h) with
    ((alloc ∅ ≫= λ l, from_object l {| blockchain := true; ens := None;
                                        zns := None; cns := None; api := None |}) h).
  rewrite (Js_bind_Some _ _ h (<[fresh (dom h) := ∅]> h) (fresh (dom h))) by done.
  rewrite (from_object_Some _ _ ∅) by apply lookup_insert_eq.
  by rewrite insert_insert_eq.
Qed.

(** The constructor with [blockchain: false]. *)
Lemma constructor_proxy (h : Heap) (a : option Types.API) :
  constructor
    (Some {| opt_blockchain := Some (Types.BlockchainBoolean false); opt_api := a |}) h
  = Some (proxy_instance a, h).
Proof. reflexivity. Qed.

(** [this.blockchain] is the truth value of the [blockchain] option. *)
Lemma constructor_blockchain (options : option Options) (h h' : Heap) (this : t) :
  constructor options h = Some (this, h') →
  blockchain this
  = blockchain_truthy
      (default (Types.BlockchainBoolean true) (options ≫= opt_blockchain)).
Proof.
  destruct (default (Types.BlockchainBoolean true) (options ≫= opt_blockchain))
    as [[]|l] eqn:Hb.
  - rewrite constructor_default by done. by intros [= <- _].
  - unfold constructor. rewrite Hb. simpl. by intros [= <- _].
  - assert (constructor options h
            = constructor (Some {| opt_blockchain := Some (Types.BlockchainObject l);
                                   opt_api := options ≫= opt_api |}) h) as ->.
    { unfold constructor. by rewrite Hb. }
    destruct (h !! l) as [o|] eqn:Hl.
    + rewrite (constructor_object _ _ o) by done. by intros [= <- _].
    + by rewrite constructor_dangling.
Qed.

End constructor_facts.

(** ** The operations on a selected backend *)

Lemma owner_no_method (this : t) (domain : string) :
  getNamingMethod this domain = None →
  owner this domain
  = Rejected (TypeError "Cannot read property 'owner' of undefined").
Proof. unfold owner. by intros ->. Qed.

Lemma owner_selected (this : t) (domain : string) m :
  getNamingMethod this domain = Some m →
  owner this domain = or_null <$> NamingService.owner m domain.
Proof.
  unfold owner. intros ->. simpl. unfold await.
  by destruct (NamingService.owner m domain).
Qed.

Lemma owner_falsy (this : t) (domain : string) m result :
  getNamingMethod this domain = Some m →
  NamingService.owner m domain = Fulfilled result →
  or_null result = None →
  owner this domain = Fulfilled None.
Proof. intros Hm Ho Hr. rewrite (owner_selected _ _ m Hm), Ho. simpl. by rewrite Hr. Qed.

(** * The claims *)

Section claims.
Context {backends : Backends}.

(** C1. For every domain, the selector behind [resolve], [address],
    [addressOrThrow], [owner], [ipfsHash], [ipfsRedirect], [email],
    [namehash], [serviceName], [isSupportedDomain] and
    [isSupportedDomainInNetwork] goes through the candidates in their fixed
    order, ENS, ZNS, CNS when the [blockchain] option is truthy and the proxy
    alone otherwise, and gives the first backend whose
    [isSupportedDomain(domain)] is true: every backend before it answers
    false, a candidate that is not configured is passed over, and nothing is
    given exactly when every configured candidate answers false.  Two
    dispatchers that select alike answer alike in each of these
    operations. *)
Theorem getNamingMethod_first_supported_in_order (this : t) (domain : string) :
  (∀ selected,
     getNamingMethod this domain = selected
     ↔ selects_first domain
         (if blockchain this
          then [Ens.base <$> ens this; zns this; cns this]
          else [api this])
         selected)
  ∧ (∀ options h h',
       constructor options h = Some (this, h') →
       blockchain this
       = blockchain_truthy
           (default (Types.BlockchainBoolean true) (options ≫= opt_blockchain)))
  ∧ (∀ this',
       getNamingMethod this' domain = getNamingMethod this domain →
       same_answers this this' domain).
Proof.
  split; [|split].
  - intros selected. apply getNamingMethod_selects_first.
  - intros options h h'. apply constructor_blockchain.
  - intros this'. apply same_selection_same_answers.
Qed.

(** C3. [address(domain, ticker)] is never rejected with a
    [ResolutionError]: it is fulfilled with [null] exactly where
    [addressOrThrow(domain, ticker)] is rejected with a [ResolutionError] of
    whatever code, is fulfilled with the value of [addressOrThrow] where
    there is one, and is rejected with the same error where [addressOrThrow]
    is rejected with an error of another class. *)
Theorem address_never_raises_ResolutionError
  (this : t) (domain ticker : string) :
  address this domain ticker
  = match addressOrThrow this domain ticker with
    | Fulfilled value => Fulfilled (Some value)
    | Rejected error =>
        if instanceof_ResolutionError error
        then Fulfilled None
        else Rejected error
    | Pending => Pending
    end
  ∧ rejected_with_ResolutionError (address this domain ticker) = false
  ∧ (∀ code context,
       address this domain ticker ≠ Rejected (ResolutionError code context))
  ∧ (∀ code context,
       addressOrThrow this domain ticker = Rejected (ResolutionError code context) →
       address this domain ticker = Fulfilled None)
  ∧ (address this domain ticker = Fulfilled None →
     ∃ code context,
       addressOrThrow this domain ticker = Rejected (ResolutionError code context))
  ∧ (∀ value,
       addressOrThrow this domain ticker = Fulfilled value →
       address this domain ticker = Fulfilled (Some value))
  ∧ (∀ message,
       addressOrThrow this domain ticker = Rejected (TypeError message) →
       address this domain ticker = Rejected (TypeError message))
  ∧ (∀ name message,
       addressOrThrow this domain ticker = Rejected (OtherError name message) →
       address this domain ticker = Rejected (OtherError name message)).
Proof.
  unfold address, await.
  destruct (addressOrThrow this domain ticker)
    as [value|[code context|message|name message]|]; simpl.
  - repeat split; try done; by intros ? [= <-].
  - repeat split; try done. intros _. by exists code, context.
  - repeat split; try done; by intros ? [= <-].
  - repeat split; try done; by intros ? ? [= <- <-].
  - repeat split; done.
Qed.

(** C4. For every domain that no configured backend supports, [resolve],
    [addressOrThrow], [ipfsHash], [ipfsRedirect], [email], [namehash] and
    [serviceName] fail with a [ResolutionError] of code [UnsupportedDomain]
    whose context holds the domain; [namehash] (as [serviceName]) throws it
    synchronously, the others reject their promise with it; and
    [isSupportedDomain(domain)] returns [false]. *)
Theorem unsupported_domain_fails (this : t) (domain : string) :
  (∀ m, Some m ∈ methods this → NamingService.isSupportedDomain m domain = false) →
  let error := ResolutionError UnsupportedDomain {[ "domain" := domain ]} in
  resolve this domain = Rejected error
  ∧ (∀ ticker, addressOrThrow this domain ticker = Rejected error)
  ∧ ipfsHash this domain = Rejected error
  ∧ ipfsRedirect this domain = Rejected error
  ∧ email this domain = Rejected error
  ∧ namehash this domain = Throw error
  ∧ serviceName this domain = Throw error
  ∧ isSupportedDomain this domain = Return false.
Proof.
  intros Hnone. apply getNamingMethod_None in Hnone.
  unfold resolve, addressOrThrow, ipfsHash, ipfsRedirect, email, namehash,
    serviceName, isSupportedDomain.
  rewrite (getNamingMethodOrThrow_None _ _ Hnone), Hnone.
  repeat split.
Qed.

(** C5. When the backend selected for a domain fulfils [resolve] with
    [null], the dispatcher's [resolve(domain)] is fulfilled, not rejected,
    with the unclaimed sentinel [{ addresses: {}, meta: { owner: null } }];
    when the backend fulfils it with a response, the dispatcher's is
    fulfilled with that response, unchanged. *)
Theorem resolve_unclaimed_sentinel (this : t) (domain : string) m :
  getNamingMethod this domain = Some m →
  (NamingService.resolve m domain = Fulfilled None →
   resolve this domain = Fulfilled Types.UnclaimedDomainResponse)
  ∧ (∀ response,
       NamingService.resolve m domain = Fulfilled (Some response) →
       resolve this domain = Fulfilled response)
  ∧ Types.addresses Types.UnclaimedDomainResponse = ∅
  ∧ Types.owner (Types.meta Types.UnclaimedDomainResponse) = None
  ∧ Types.extra (Types.meta Types.UnclaimedDomainResponse) = ∅.
Proof.
  intros Hm. unfold resolve, await.
  rewrite (getNamingMethodOrThrow_Some _ _ m Hm). simpl.
  split; [by intros ->|]. split; [by intros response ->|done].
Qed.

(** C6. The constructor: without a [blockchain] option, or with [true], it
    enables the three direct backends, each built from [true] (its default
    endpoint), and no proxy; with a per-protocol object it enables each of
    ENS, ZNS and CNS exactly when the object's field is absent (then built
    from [true]) or truthy (then built from the field), and not when the
    field is [false]; with [false] it builds the proxy alone, from the url of
    the [api] option or of [DefaultAPI].  The instance is a value fixed at
    construction: no operation takes the options again or gives another
    instance. *)
Theorem constructor_configures_backends (h : Heap) (a : option Types.API) :
  (∀ options,
     options ≫= opt_blockchain = None
     ∨ options ≫= opt_blockchain = Some (Types.BlockchainBoolean true) →
     ∃ h',
       constructor options h
       = Some ({| blockchain := true;
                  ens := Some (Ens_new (Types.SourceBoolean true));
                  zns := Some (Zns_new (Types.SourceBoolean true));
                  cns := Some (Cns_new (Types.SourceBoolean true));
                  api := None |}, h')
       ∧ h ⊆ h')
  ∧ (∀ l o,
       h !! l = Some o →
       ∃ h',
         constructor
           (Some {| opt_blockchain := Some (Types.BlockchainObject l);
                    opt_api := a |}) h
         = Some ({| blockchain := true;
                    ens := Ens_new <$> enabled (o !! "ens");
                    zns := Zns_new <$> enabled (o !! "zns");
                    cns := Cns_new <$> enabled (o !! "cns");
                    api := None |}, h'))
  ∧ constructor
      (Some {| opt_blockchain := Some (Types.BlockchainBoolean false);
               opt_api := a |}) h
    = Some ({| blockchain := false; ens := None; zns := None; cns := None;
               api := Some (Udapi_new (Types.url (default DefaultAPI a))) |}, h)
  ∧ enabled None = Some (Types.SourceBoolean true)
  ∧ enabled (Some (Types.SourceBoolean false)) = None
  ∧ (∀ source, source_truthy (Some source) = true →
               enabled (Some source) = Some source).
Proof.
  split; [|split; [|split; [|split; [|split]]]].
  - intros options Hb. exists (<[fresh (dom h) := with_defaults ∅]> h). split.
    + apply constructor_default. by destruct Hb as [-> | ->].
    + apply insert_subseteq, not_elem_of_dom, is_fresh.
  - intros l o Hl. eexists. by apply constructor_object.
  - apply constructor_proxy.
  - reflexivity.
  - reflexivity.
  - by intros [[]|].
Qed.

(** C7. [isSupportedDomainInNetwork(domain)] returns [true] if and only if
    a backend is selected for the domain (the first configured one whose
    [isSupportedDomain(domain)] is true) and its [isSupportedNetwork()] is
    true; it never throws; and when no backend is selected it returns
    [undefined], which is falsy and is not the boolean [false]. *)
Theorem isSupportedDomainInNetwork_iff (this : t) (domain : string) :
  (∃ v, isSupportedDomainInNetwork this domain = Return v)
  ∧ (isSupportedDomainInNetwork this domain = Return (JsBoolean true)
     ↔ ∃ m, getNamingMethod this domain = Some m
            ∧ first_supported domain (methods this) (Some m)
            ∧ NamingService.isSupportedNetwork m = true)
  ∧ (getNamingMethod this domain = None →
     isSupportedDomainInNetwork this domain = Return JsUndefined
     ∧ truthy JsUndefined = false
     ∧ JsUndefined ≠ JsBoolean false).
Proof.
  pose proof (getNamingMethod_first this domain) as Hfirst.
  unfold isSupportedDomainInNetwork.
  destruct (getNamingMethod this domain) as [m|] eqn:Hm.
  - split; [by eexists|]. split; [|done]. split.
    + intros [= Hn]. by exists m.
    + intros (m' & [= <-] & _ & ->). done.
  - split; [by eexists|]. split; [|done]. split.
    + done.
    + by intros (m' & ? & _).
Qed.

(** C8. For every domain with a selected backend, [ipfsHash(domain)],
    [ipfsRedirect(domain)] and [email(domain)] are the backend's [record]
    on the domain with the keys ['ipfs.html.value'],
    ['ipfs.redirect_domain.value'] and ['whois.email.value'], its errors
    included: in particular [email] is rejected with the backend's
    [RecordNotFound] when the domain has no email record. *)
Theorem record_operations_delegate (this : t) (domain : string) m :
  getNamingMethod this domain = Some m →
  ipfsHash this domain = NamingService.record m domain "ipfs.html.value"
  ∧ ipfsRedirect this domain
    = NamingService.record m domain "ipfs.redirect_domain.value"
  ∧ email this domain = NamingService.record m domain "whois.email.value"
  ∧ (∀ context,
       NamingService.record m domain "whois.email.value"
       = Rejected (ResolutionError RecordNotFound context) →
       email this domain = Rejected (ResolutionError RecordNotFound context)).
Proof.
  intros Hm. unfold ipfsHash, ipfsRedirect, email, await.
  rewrite (getNamingMethodOrThrow_Some _ _ m Hm). simpl.
  repeat split. by intros context ->.
Qed.

(** C9. [reverse(address, currencyTicker)] is the ENS backend's [reverse],
    whatever the selector would choose; when no ENS backend is configured,
    as in an instance constructed in proxy mode or from an object whose
    [ens] is [false], the call is rejected with the [TypeError] of reading
    a property of [undefined], which is not a [ResolutionError]. *)
Theorem reverse_bypasses_selection (this : t) (address ticker : string) :
  reverse this address ticker
  = match ens this with
    | Some e => Ens.reverse e address ticker
    | None => Rejected (TypeError "Cannot read property 'reverse' of undefined")
    end
  ∧ instanceof_ResolutionError
      (TypeError "Cannot read property 'reverse' of undefined") = false
  ∧ (∀ options h h',
       constructor options h = Some (this, h') →
       (options ≫= opt_blockchain = Some (Types.BlockchainBoolean false) →
        reverse this address ticker
        = Rejected (TypeError "Cannot read property 'reverse' of undefined"))
       ∧ (∀ l o,
            options ≫= opt_blockchain = Some (Types.BlockchainObject l) →
            h !! l = Some o →
            o !! "ens" = Some (Types.SourceBoolean false) →
            reverse this address ticker
            = Rejected (TypeError "Cannot read property 'reverse' of undefined"))).
Proof.
  assert (∀ this', reverse this' address ticker
          = match ens this' with
            | Some e => Ens.reverse e address ticker
            | None => Rejected (TypeError "Cannot read property 'reverse' of undefined")
            end) as Hrev.
  { intros this'. unfold reverse, await. by destruct (ens this'). }
  split; [apply Hrev|]. split; [done|].
  intros [[[b|] oa]|] h h'; simpl; intros Hc; (split; [intros [= ->]|]);
    try (intros l o [= ->]); try (intros ? ? [=]).
  - rewrite constructor_proxy in Hc. by injection Hc as <- _.
  - intros Hl Hens. rewrite (constructor_object _ _ o) in Hc by done.
    injection Hc as <- _. rewrite Hrev. simpl. by rewrite Hens.
Qed.

(** C10. Given a per-protocol object, the constructor writes into that
    very object: at the caller's reference the heap holds, after the
    construction, the object with [true] in each of [ens], [zns] and [cns]
    that was absent, its other fields and all other objects as before; so
    the object is not what it was whenever one of the three was absent. *)
Theorem constructor_writes_defaults_in_place
  (h : Heap) (l : positive) o (a : option Types.API) :
  h !! l = Some o →
  ∃ this o',
    constructor
      (Some {| opt_blockchain := Some (Types.BlockchainObject l); opt_api := a |}) h
    = Some (this, <[l := o']> h)
    ∧ o' !! "ens" = Some (default (Types.SourceBoolean true) (o !! "ens"))
    ∧ o' !! "zns" = Some (default (Types.SourceBoolean true) (o !! "zns"))
    ∧ o' !! "cns" = Some (default (Types.SourceBoolean true) (o !! "cns"))
    ∧ (∀ f : string, f ∉ ["ens"; "zns"; "cns"] → o' !! f = o !! f)
    ∧ (o !! "ens" = None ∨ o !! "zns" = None ∨ o !! "cns" = None → o' ≠ o).
Proof.
  intros Hl. exists (direct_instance o), (with_defaults o).
  split; [by apply constructor_object|].
  split; [apply with_defaults_ens|].
  split; [apply with_defaults_zns|].
  split; [apply with_defaults_cns|].
  split; [apply with_defaults_other|].
  intros Habsent Heq.
  pose proof (with_defaults_ens o) as He.
  pose proof (with_defaults_zns o) as Hz.
  pose proof (with_defaults_cns o) as Hc.
  rewrite Heq in He, Hz, Hc.
  destruct Habsent as [Hn|[Hn|Hn]]; congruence.
Qed.

End claims.

(** C2. On a domain that no configured backend supports, as
    ['bogdangusiev.qq'] for [new Resolution()], [owner] reads [owner] of the
    [undefined] the selector gave: its promise is rejected with a
    [TypeError], not fulfilled with [null]. *)
Theorem owner_unsupported_domain_rejects :
  constructor (backends := Sample.backends) None ∅
  = Some (Sample.direct, {[ 1%positive := with_defaults ∅ ]})
  ∧ getNamingMethod Sample.direct "bogdangusiev.qq" = None
  ∧ owner Sample.direct "bogdangusiev.qq"
    = Rejected (TypeError "Cannot read property 'owner' of undefined").
Proof. split; [|split]; vm_compute; reflexivity. Qed.

(** ** The claims on the sample world *)

Lemma getNamingMethod_first_supported_in_order_witness :
  getNamingMethod Sample.direct "brad.zil"
  = Some (Sample.zns (Types.SourceBoolean true))
  ∧ getNamingMethod Sample.direct "bogdangusiev.qq" = None
  ∧ same_answers Sample.direct Sample.zns_only "brad.zil"
  ∧ blockchain Sample.direct = true.
Proof.
  destruct (getNamingMethod_first_supported_in_order
              (backends := Sample.backends) Sample.direct "brad.zil")
    as (Hselect & Hflag & Hsame).
  destruct (getNamingMethod_first_supported_in_order
              (backends := Sample.backends) Sample.direct "bogdangusiev.qq")
    as (Hselect' & _).
  split; [|split; [|split]].
  - apply Hselect.
    exists [Some (Ens.base (Sample.ens (Types.SourceBoolean true)))],
      [Some (Sample.cns (Types.SourceBoolean true))].
    split; [reflexivity|]. split; [reflexivity|].
    intros m' Hin. apply list_elem_of_singleton in Hin.
    injection Hin as ->. reflexivity.
  - apply Hselect'.
    exact (proj1 (forallb_unsupported "bogdangusiev.qq" (methods Sample.direct))
             eq_refl).
  - apply Hsame. reflexivity.
  - apply (Hflag None ∅ {[ 1%positive := with_defaults ∅ ]}).
    vm_compute. reflexivity.
Defined.

Lemma address_never_raises_ResolutionError_witness :
  addressOrThrow Sample.direct "bogdangusiev.qq" "ZIL"
  = Rejected (ResolutionError UnsupportedDomain {[ "domain" := "bogdangusiev.qq" ]})
  ∧ address Sample.direct "bogdangusiev.qq" "ZIL" = Fulfilled None
  ∧ address Sample.direct "brad.zil" "ZIL"
    = Fulfilled (Some "zil1yu5u4hegy9v3xgluweg4en54zm8f8auwxu0xxj").
Proof.
  destruct (address_never_raises_ResolutionError Sample.direct
              "bogdangusiev.qq" "ZIL") as (_ & _ & _ & Hnull & _).
  destruct (address_never_raises_ResolutionError Sample.direct
              "brad.zil" "ZIL") as (_ & _ & _ & _ & _ & Hvalue & _).
  split; [reflexivity|]. split.
  - apply (Hnull UnsupportedDomain {[ "domain" := "bogdangusiev.qq" ]}).
    reflexivity.
  - apply Hvalue. reflexivity.
Defined.

Lemma unsupported_domain_fails_witness :
  (∀ m, Some m ∈ methods Sample.direct →
        NamingService.isSupportedDomain m "something.hello.com" = false)
  ∧ namehash Sample.direct "something.hello.com"
    = Throw (ResolutionError UnsupportedDomain
               {[ "domain" := "something.hello.com" ]})
  ∧ isSupportedDomain Sample.direct "something.hello.com" = Return false.
Proof.
  assert (∀ m, Some m ∈ methods Sample.direct →
               NamingService.isSupportedDomain m "something.hello.com" = false)
    as Hnone.
  { apply unsupported_by_all. reflexivity. }
  split; [exact Hnone|].
  destruct (unsupported_domain_fails Sample.direct "something.hello.com" Hnone)
    as (_ & _ & _ & _ & _ & Hhash & _ & Hsupported).
  split; [exact Hhash|exact Hsupported].
Defined.

Lemma resolve_unclaimed_sentinel_witness :
  getNamingMethod Sample.direct "sdncdoncvdinvcsdncs.zil"
  = Some (Sample.zns (Types.SourceBoolean true))
  ∧ NamingService.resolve (Sample.zns (Types.SourceBoolean true))
      "sdncdoncvdinvcsdncs.zil" = Fulfilled None
  ∧ resolve Sample.direct "sdncdoncvdinvcsdncs.zil"
    = Fulfilled Types.UnclaimedDomainResponse
  ∧ resolve Sample.direct "brad.zil" = Fulfilled Sample.brad.
Proof.
  split; [reflexivity|]. split; [reflexivity|]. split.
  - destruct (resolve_unclaimed_sentinel Sample.direct "sdncdoncvdinvcsdncs.zil"
                (Sample.zns (Types.SourceBoolean true)) eq_refl)
      as (Hnull & _).
    apply Hnull. reflexivity.
  - destruct (resolve_unclaimed_sentinel Sample.direct "brad.zil"
                (Sample.zns (Types.SourceBoolean true)) eq_refl)
      as (_ & Hresponse & _).
    apply Hresponse. reflexivity.
Defined.

Lemma constructor_configures_backends_witness :
  ({[ 1%positive := Sample.partial ]} : Heap) !! 1%positive = Some Sample.partial
  ∧ (∃ h',
       constructor (backends := Sample.backends)
         (Some {| opt_blockchain := Some (Types.BlockchainObject 1);
                  opt_api := None |})
         {[ 1%positive := Sample.partial ]}
       = Some ({| blockchain := true;
                  ens := None;
                  zns := Some (Sample.zns
                                 (Types.SourceDefinition "https://api.zilliqa.com" "mainnet"));
                  cns := Some (Sample.cns (Types.SourceBoolean true));
                  api := None |}, h'))
  ∧ (∃ h',
       constructor (backends := Sample.backends) None
         {[ 1%positive := Sample.partial ]}
       = Some (Sample.direct, h')
       ∧ ({[ 1%positive := Sample.partial ]} : Heap) ⊆ h').
Proof.
  destruct (constructor_configures_backends (backends := Sample.backends)
              {[ 1%positive := Sample.partial ]} None)
    as (Hdefault & Hobject & _).
  split; [reflexivity|]. split.
  - exact (Hobject 1%positive Sample.partial eq_refl).
  - exact (Hdefault None (or_introl eq_refl)).
Defined.

Lemma isSupportedDomainInNetwork_iff_witness :
  isSupportedDomainInNetwork Sample.direct "brad.zil" = Return (JsBoolean true)
  ∧ getNamingMethod Sample.direct "bogdangusiev.qq" = None
  ∧ isSupportedDomainInNetwork Sample.direct "bogdangusiev.qq" = Return JsUndefined.
Proof.
  split; [|split; [reflexivity|]].
  - apply (isSupportedDomainInNetwork_iff Sample.direct "brad.zil").
    exists (Sample.zns (Types.SourceBoolean true)).
    split; [reflexivity|]. split; [|reflexivity].
    exact (getNamingMethod_first Sample.direct "brad.zil").
  - apply (isSupportedDomainInNetwork_iff Sample.direct "bogdangusiev.qq").
    reflexivity.
Defined.

Lemma record_operations_delegate_witness :
  getNamingMethod Sample.direct "brad.zil"
  = Some (Sample.zns (Types.SourceBoolean true))
  ∧ ipfsHash Sample.direct "brad.zil"
    = Fulfilled "QmVaAtQbi3EtsfpKoLzALm6vXphdi2KjMgxEDKeGg6wHuK"
  ∧ email Sample.direct "brad.zil"
    = Rejected (ResolutionError RecordNotFound {[ "domain" := "brad.zil" ]}).
Proof.
  destruct (record_operations_delegate Sample.direct "brad.zil"
              (Sample.zns (Types.SourceBoolean true)) eq_refl)
    as (Hhash & _ & _ & Hemail).
  split; [reflexivity|]. split.
  - exact Hhash.
  - apply Hemail. reflexivity.
Defined.

Lemma reverse_bypasses_selection_witness :
  constructor (backends := Sample.backends)
    (Some {| opt_blockchain := Some (Types.BlockchainBoolean false);
             opt_api := None |}) ∅
  = Some (Sample.proxy, ∅)
  ∧ reverse Sample.proxy "0xb0E7a465D255aE83eb7F8a50504F3867B945164C" "ETH"
    = Rejected (TypeError "Cannot read property 'reverse' of undefined")
  ∧ reverse Sample.zns_only "0xb0E7a465D255aE83eb7F8a50504F3867B945164C" "ETH"
    = Rejected (TypeError "Cannot read property 'reverse' of undefined").
Proof.
  split; [reflexivity|]. split.
  - destruct (reverse_bypasses_selection (backends := Sample.backends)
                Sample.proxy "0xb0E7a465D255aE83eb7F8a50504F3867B945164C" "ETH")
      as (_ & _ & Hconstructed).
    apply (Hconstructed
             (Some {| opt_blockchain := Some (Types.BlockchainBoolean false);
                      opt_api := None |}) ∅ ∅ eq_refl).
    reflexivity.
  - destruct (reverse_bypasses_selection (backends := Sample.backends)
                Sample.zns_only "0xb0E7a465D255aE83eb7F8a50504F3867B945164C" "ETH")
      as (_ & _ & Hconstructed).
    assert (constructor (backends := Sample.backends)
              (Some {| opt_blockchain := Some (Types.BlockchainObject 1);
                       opt_api := None |})
              {[ 1%positive := {[ "ens" := Types.SourceBoolean false;
                                  "cns" := Types.SourceBoolean false ]} ]}
            = Some (Sample.zns_only,
                    {[ 1%positive := {[ "ens" := Types.SourceBoolean false;
                                        "zns" := Types.SourceBoolean true;
                                        "cns" := Types.SourceBoolean false ]} ]}))
      as Hc by (vm_compute; reflexivity).
    apply (Hconstructed _ _ _ Hc) with
      (l := 1%positive)
      (o := {[ "ens" := Types.SourceBoolean false;
               "cns" := Types.SourceBoolean false ]});
      reflexivity.
Defined.

Lemma constructor_writes_defaults_in_place_witness :
  ({[ 1%positive := Sample.partial ]} : Heap) !! 1%positive = Some Sample.partial
  ∧ ∃ this o',
      constructor (backends := Sample.backends)
        (Some {| opt_blockchain := Some (Types.BlockchainObject 1);
                 opt_api := None |})
        {[ 1%positive := Sample.partial ]}
      = Some (this, <[1%positive := o']> {[ 1%positive := Sample.partial ]})
      ∧ o' !! "cns" = Some (Types.SourceBoolean true)
      ∧ o' ≠ Sample.partial.
Proof.
  assert (({[ 1%positive := Sample.partial ]} : Heap) !! 1%positive
          = Some Sample.partial) as Hl by reflexivity.
  split; [exact Hl|].
  destruct (constructor_writes_defaults_in_place (backends := Sample.backends)
              _ 1%positive Sample.partial None Hl)
    as (this & o' & Hc & _ & _ & Hcns & _ & Hchanged).
  exists this, o'. split; [exact Hc|]. split; [exact Hcns|].
  apply Hchanged. right. right. reflexivity.
Defined.

(** * Further properties of the dispatcher *)

(** ** Facts on the per-protocol object *)

Lemma with_defaults_lookup o (f : string) :
  with_defaults o !! f
  = if bool_decide (f ∈ ["ens"; "zns"; "cns"])
    then Some (default (Types.SourceBoolean true) (o !! f))
    else o !! f.
Proof.
  case_bool_decide as Hf.
  - apply elem_of_cons in Hf as [->|Hf]; [apply with_defaults_ens|].
    apply elem_of_cons in Hf as [->|Hf]; [apply with_defaults_zns|].
    apply elem_of_cons in Hf as [->|Hf]; [apply with_defaults_cns|].
    by apply elem_of_nil in Hf.
  - by apply with_defaults_other.
Qed.

Lemma with_defaults_present o (f : string) v :
  o !! f = Some v → with_defaults o !! f = Some v.
Proof. intros Hf. rewrite with_defaults_lookup, Hf. by case_bool_decide. Qed.

Lemma with_defaults_idempotent o :
  with_defaults (with_defaults o) = with_defaults o.
Proof.
  apply map_eq. intros f. rewrite (with_defaults_lookup (with_defaults o)).
  case_bool_decide as Hf; [|done].
  rewrite with_defaults_lookup. by rewrite bool_decide_eq_true_2.
Qed.

Lemma with_defaults_explicit o :
  is_Some (o !! "ens") → is_Some (o !! "zns") → is_Some (o !! "cns") →
  with_defaults o = o.
Proof.
  intros [e He] [z Hz] [c Hc]. apply map_eq. intros f.
  rewrite with_defaults_lookup. case_bool_decide as Hf; [|done].
  apply elem_of_cons in Hf as [->|Hf]; [by rewrite He|].
  apply elem_of_cons in Hf as [->|Hf]; [by rewrite Hz|].
  apply elem_of_cons in Hf as [->|Hf]; [by rewrite Hc|].
  by apply elem_of_nil in Hf.
Qed.

Lemma enabled_default (field : option Types.NamingServiceSource) :
  enabled (Some (default (Types.SourceBoolean true) field)) = enabled field.
Proof. by destruct field as [[[]|]|]. Qed.

Section constructor_cases.
Context {backends : Backends}.

Lemma direct_instance_with_defaults o :
  direct_instance (with_defaults o) = direct_instance o.
Proof.
  unfold direct_instance.
  by rewrite with_defaults_ens, with_defaults_zns, with_defaults_cns,
    !enabled_default.
Qed.

(** The three ways the constructor has a result. *)
Lemma constructor_cases (options : option Options) (h h' : Heap) (this : t) :
  constructor options h = Some (this, h') →
  (blockchain this = true
   ∧ this = direct_instance ∅
   ∧ h' = <[fresh (dom h) := with_defaults ∅]> h
   ∧ ∀ l, options ≫= opt_blockchain ≠ Some (Types.BlockchainObject l))
  ∨ (blockchain this = false
     ∧ this = proxy_instance (options ≫= opt_api)
     ∧ h' = h
     ∧ ∀ l, options ≫= opt_blockchain ≠ Some (Types.BlockchainObject l))
  ∨ (∃ l o,
       options ≫= opt_blockchain = Some (Types.BlockchainObject l)
       ∧ h !! l = Some o
       ∧ this = direct_instance o
       ∧ h' = <[l := with_defaults o]> h).
Proof.
  destruct (default (Types.BlockchainBoolean true) (options ≫= opt_blockchain))
    as [[]|l] eqn:Hb.
  - rewrite constructor_default by done. intros [= <- <-]. left.
    repeat split. intros l Hl. by rewrite Hl in Hb.
  - unfold constructor. rewrite Hb. simpl. intros [= <- <-]. right. left.
    repeat split. intros l Hl. by rewrite Hl in Hb.
  - assert (options ≫= opt_blockchain = Some (Types.BlockchainObject l)) as Ho.
    { destruct (options ≫= opt_blockchain); simpl in Hb; by simplify_eq. }
    assert (constructor options h
            = constructor (Some {| opt_blockchain := Some (Types.BlockchainObject l);
                                   opt_api := options ≫= opt_api |}) h) as ->.
    { unfold constructor. by rewrite Hb. }
    destruct (h !! l) as [o|] eqn:Hl.
    + rewrite (constructor_object _ _ o) by done. intros [= <- <-].
      right. right. by exists l, o.
    + by rewrite constructor_dangling.
Qed.

End constructor_cases.

(** ** Selection and the operations *)

(** X1. [isSupportedDomain(domain)] never throws, and it returns [true]
    exactly when one of the configured candidates supports the domain. *)
Theorem isSupportedDomain_iff_some_backend (this : t) (domain : string) :
  (∃ b, isSupportedDomain this domain = Return b)
  ∧ (isSupportedDomain this domain = Return true
     ↔ ∃ m, Some m ∈ methods this
            ∧ NamingService.isSupportedDomain m domain = true).
Proof.
  split; [by eexists|]. unfold isSupportedDomain.
  pose proof (getNamingMethod_first this domain) as Hfirst.
  pose proof (getNamingMethod_None this domain) as Hnone.
  destruct (getNamingMethod this domain) as [m|]; simpl in Hfirst.
  - split; [intros _|intros _; f_equal; by apply bool_decide_eq_true_2].
    destruct Hfirst as (skipped & rest & Hl & Hm & _).
    exists m. split; [|done]. rewrite Hl, elem_of_app, elem_of_cons. auto.
  - split.
    + by intros [= Hb].
    + intros (m & Hin & Hm). rewrite (proj1 Hnone eq_refl m Hin) in Hm. done.
Qed.

(** X2. A domain supported in the network is a supported domain: when
    [isSupportedDomainInNetwork(domain)] returns a truthy value,
    [isSupportedDomain(domain)] returns [true]; and when the latter returns
    [false], the former returns [undefined]. *)
Theorem supported_in_network_is_supported (this : t) (domain : string) :
  (∀ v, isSupportedDomainInNetwork this domain = Return v →
        truthy v = true →
        isSupportedDomain this domain = Return true)
  ∧ (isSupportedDomain this domain = Return false →
     isSupportedDomainInNetwork this domain = Return JsUndefined).
Proof.
  unfold isSupportedDomainInNetwork, isSupportedDomain.
  destruct (getNamingMethod this domain) as [m|]; split.
  - by intros _ _ _.
  - by intros [= Hb].
  - by intros v [= <-].
  - done.
Qed.

(** X3. With a backend selected for the domain, the dispatcher hands on
    what the backend answers.  [addressOrThrow], [namehash] and
    [serviceName] are the backend's, whatever their outcome.  [resolve] is
    fulfilled with the backend's response, and with the sentinel for
    [null].  [owner] is fulfilled with the backend's owner when that is a
    string other than the empty one, and with [null] when it is the empty
    string or [null].  A rejection of the backend's [resolve] or [owner] is
    the dispatcher's, with the same error, and where the backend's promise
    never settles neither does the dispatcher's. *)
Theorem selected_backend_answers (this : t) (domain : string) m :
  getNamingMethod this domain = Some m →
  (∀ ticker, addressOrThrow this domain ticker
             = NamingService.address m domain ticker)
  ∧ namehash this domain = NamingService.namehash m domain
  ∧ serviceName this domain = NamingService.serviceName m domain
  ∧ (∀ response,
       NamingService.resolve m domain = Fulfilled (Some response) →
       resolve this domain = Fulfilled response)
  ∧ (NamingService.resolve m domain = Fulfilled None →
     resolve this domain
     = Fulfilled {| Types.addresses := ∅;
                    Types.meta := {| Types.owner := None; Types.extra := ∅ |} |})
  ∧ (∀ error,
       NamingService.resolve m domain = Rejected error →
       resolve this domain = Rejected error)
  ∧ (NamingService.resolve m domain = Pending → resolve this domain = Pending)
  ∧ (∀ s, NamingService.owner m domain = Fulfilled (Some s) →
          s ≠ "" →
          owner this domain = Fulfilled (Some s))
  ∧ (NamingService.owner m domain = Fulfilled (Some "") →
     owner this domain = Fulfilled None)
  ∧ (NamingService.owner m domain = Fulfilled None →
     owner this domain = Fulfilled None)
  ∧ (∀ error,
       NamingService.owner m domain = Rejected error →
       owner this domain = Rejected error)
  ∧ (NamingService.owner m domain = Pending → owner this domain = Pending).
Proof.
  intros Hm. rewrite (owner_selected _ _ m Hm).
  unfold resolve, addressOrThrow, namehash, serviceName, await.
  rewrite (getNamingMethodOrThrow_Some _ _ m Hm). simpl.
  split; [done|]. split; [done|]. split; [done|].
  split; [by intros response ->|]. split; [by intros ->|].
  split; [by intros error ->|]. split; [by intros ->|].
  split; [intros s -> Hs; by destruct s|].
  split; [by intros ->|]. split; [by intros ->|].
  split; [by intros error ->|by intros ->].
Qed.

(** X4. On a domain that no configured backend supports, the non-throwing
    [address] is fulfilled with [null], for every ticker. *)
Theorem address_null_on_unsupported_domain (this : t) (domain ticker : string) :
  (∀ m, Some m ∈ methods this → NamingService.isSupportedDomain m domain = false) →
  address this domain ticker = Fulfilled None.
Proof.
  intros Hnone. apply getNamingMethod_None in Hnone.
  unfold address, addressOrThrow, await.
  by rewrite (getNamingMethodOrThrow_None _ _ Hnone).
Qed.

(** X5. An owner that [owner(domain)] is fulfilled with is never the empty
    string, and it is the owner the selected backend reported. *)
Theorem owner_reported_is_backend_owner (this : t) (domain s : string) :
  owner this domain = Fulfilled (Some s) →
  s ≠ ""
  ∧ ∃ m, getNamingMethod this domain = Some m
         ∧ NamingService.owner m domain = Fulfilled (Some s).
Proof.
  destruct (getNamingMethod this domain) as [m|] eqn:Hm.
  - rewrite (owner_selected _ _ m Hm).
    destruct (NamingService.owner m domain) as [[o|]|e|] eqn:Ho; try done.
    destruct o as [|c o]; [done|]. simpl. intros [= <-].
    split; [done|]. exists m. split; [reflexivity|exact Ho].
  - by rewrite (owner_no_method _ _ Hm).
Qed.

(** X6. The order of the candidates is a priority.  In direct mode an ENS
    backend that supports the domain is selected whatever ZNS and CNS say,
    ZNS is selected when ENS is absent or does not support it, CNS when
    neither ENS nor ZNS does; the proxy is never selected.  In proxy mode
    the proxy alone is consulted. *)
Theorem selection_priority (this : t) (domain : string) :
  (blockchain this = true →
   (∀ e, ens this = Some e →
         NamingService.isSupportedDomain (Ens.base e) domain = true →
         getNamingMethod this domain = Some (Ens.base e))
   ∧ (∀ z, supports domain (Ens.base <$> ens this) = false →
           zns this = Some z →
           NamingService.isSupportedDomain z domain = true →
           getNamingMethod this domain = Some z)
   ∧ (∀ c, supports domain (Ens.base <$> ens this) = false →
           supports domain (zns this) = false →
           cns this = Some c →
           NamingService.isSupportedDomain c domain = true →
           getNamingMethod this domain = Some c)
   ∧ (supports domain (Ens.base <$> ens this) = false →
      supports domain (zns this) = false →
      supports domain (cns this) = false →
      getNamingMethod this domain = None))
  ∧ (blockchain this = false →
     getNamingMethod this domain
     = if supports domain (api this) then api this else None).
Proof.
  unfold getNamingMethod, methods. split; intros ->; simpl.
  - split; [|split; [|split]].
    + intros e -> He. simpl. by rewrite He.
    + intros z -> -> Hz. simpl. by rewrite Hz.
    + intros c -> -> -> Hc. simpl. by rewrite Hc.
    + by intros -> -> ->.
  - destruct (api this) as [a|]; simpl; [|done].
    by destruct (NamingService.isSupportedDomain a domain).
Qed.

(** ** The constructor *)

Section constructor_properties.
Context {backends : Backends}.

(** X7. Whatever the options, an instance the constructor builds is in
    one of two modes: with [this.blockchain] true it has no proxy, with
    [this.blockchain] false it has the proxy and none of ENS, ZNS, CNS.  So
    every backend it holds is a candidate of the selector. *)
Theorem constructor_modes_exclusive
  (options : option Options) (h h' : Heap) (this : t) :
  constructor options h = Some (this, h') →
  (if blockchain this
   then api this = None
   else ens this = None ∧ zns this = None ∧ cns this = None
        ∧ is_Some (api this))
  ∧ ∀ m, (Ens.base <$> ens this = Some m ∨ zns this = Some m
          ∨ cns this = Some m ∨ api this = Some m) →
         Some m ∈ methods this.
Proof.
  intros Hc.
  assert (if blockchain this
          then api this = None
          else ens this = None ∧ zns this = None ∧ cns this = None
               ∧ is_Some (api this)) as Hmode.
  { apply constructor_cases in Hc
      as [(_ & -> & _)|[(_ & -> & _)|(l & o & _ & _ & -> & _)]]; simpl; eauto. }
  split; [done|]. intros m. unfold methods.
  destruct (blockchain this).
  - rewrite Hmode. intros [<-|[<-|[<-|?]]]; [set_solver..|done].
  - destruct Hmode as (-> & -> & -> & _). simpl.
    intros [?|[?|[?|<-]]]; [done..|set_solver].
Qed.

(** X8. A per-protocol object with [ens], [zns] and [cns] all [false]
    gives an instance with no backend at all, the proxy included: it
    supports no domain, its throwing operations fail with
    [UnsupportedDomain] on every domain, and the object is left as it was. *)
Theorem all_protocols_disabled_no_fallback
  (h : Heap) (l : positive) o (a : option Types.API) :
  h !! l = Some o →
  o !! "ens" = Some (Types.SourceBoolean false) →
  o !! "zns" = Some (Types.SourceBoolean false) →
  o !! "cns" = Some (Types.SourceBoolean false) →
  ∃ this,
    constructor
      (Some {| opt_blockchain := Some (Types.BlockchainObject l); opt_api := a |}) h
    = Some (this, h)
    ∧ methods this = [None; None; None]
    ∧ api this = None
    ∧ ∀ domain,
        isSupportedDomain this domain = Return false
        ∧ resolve this domain
          = Rejected (ResolutionError UnsupportedDomain {[ "domain" := domain ]})
        ∧ namehash this domain
          = Throw (ResolutionError UnsupportedDomain {[ "domain" := domain ]}).
Proof.
  intros Hl He Hz Hc. exists (direct_instance o).
  assert (direct_instance o
          = {| blockchain := true; ens := None; zns := None; cns := None;
               api := None |}) as Hthis.
  { unfold direct_instance. by rewrite He, Hz, Hc. }
  split.
  - rewrite (constructor_object _ _ o) by done.
    rewrite with_defaults_explicit by (by eexists). by rewrite insert_id.
  - rewrite Hthis. repeat split.
Qed.

(** X9. Constructing again from the same per-protocol object gives the
    same instance and writes nothing more: after the first construction
    the object holds a value for each of [ens], [zns] and [cns]. *)
Theorem constructor_idempotent_on_object
  (h : Heap) (l : positive) o (a : option Types.API) :
  h !! l = Some o →
  ∃ this h1 o1,
    constructor
      (Some {| opt_blockchain := Some (Types.BlockchainObject l); opt_api := a |}) h
    = Some (this, h1)
    ∧ h1 !! l = Some o1
    ∧ is_Some (o1 !! "ens") ∧ is_Some (o1 !! "zns") ∧ is_Some (o1 !! "cns")
    ∧ constructor
        (Some {| opt_blockchain := Some (Types.BlockchainObject l); opt_api := a |}) h1
      = Some (this, h1).
Proof.
  intros Hl.
  exists (direct_instance o), (<[l := with_defaults o]> h), (with_defaults o).
  split; [by apply constructor_object|].
  split; [apply lookup_insert_eq|].
  rewrite with_defaults_ens, with_defaults_zns, with_defaults_cns.
  split; [by eexists|]. split; [by eexists|]. split; [by eexists|].
  rewrite (constructor_object _ _ (with_defaults o)) by apply lookup_insert_eq.
  by rewrite direct_instance_with_defaults, with_defaults_idempotent,
    insert_insert_eq.
Qed.

(** X10. The constructor never removes an object, nor removes or changes a
    field that has a value: a field the caller has set, [false] included,
    reads the same after the construction; and an object that is not the
    one given as [blockchain] is left as it was. *)
Theorem constructor_keeps_present_fields
  (options : option Options) (h h' : Heap) (this : t) (l : positive) o :
  constructor options h = Some (this, h') →
  h !! l = Some o →
  (∃ o', h' !! l = Some o'
         ∧ ∀ (f : string) v, o !! f = Some v → o' !! f = Some v)
  ∧ (options ≫= opt_blockchain ≠ Some (Types.BlockchainObject l) →
     h' !! l = Some o).
Proof.
  intros Hc Hl.
  assert (fresh (dom h) ≠ l) as Hfresh.
  { intros <-. apply (is_fresh (dom h)), elem_of_dom. by eexists. }
  apply constructor_cases in Hc
    as [(_ & _ & -> & _)|[(_ & _ & -> & _)|(l0 & o0 & Ho & Hl0 & _ & ->)]].
  - rewrite lookup_insert_ne by done. split; [by exists o|done].
  - split; [by exists o|done].
  - destruct (decide (l0 = l)) as [->|Hne].
    + assert (o0 = o) as -> by congruence.
      rewrite lookup_insert_eq. split; [|by intros []].
      exists (with_defaults o). split; [done|]. apply with_defaults_present.
    + rewrite lookup_insert_ne by done. split; [by exists o|done].
Qed.

End constructor_properties.

(** ** The test helper *)

Import TestHelpers.

Lemma expect_toEqual_passes (received expected : string) :
  async (expect_toEqual received expected) = Fulfilled () ↔ received = expected.
Proof.
  unfold expect_toEqual.
  destruct (String.eqb received expected) eqn:Heq; simpl.
  - by apply String.eqb_eq in Heq.
  - apply String.eqb_neq in Heq. by split.
Qed.

Lemma expect_toEqual_fails (received expected : string) :
  received ≠ expected →
  async (expect_toEqual received expected)
  = Rejected (assertion_error "expect(received).toEqual(expected)").
Proof.
  intros Hne. unfold expect_toEqual.
  apply String.eqb_neq in Hne. by rewrite Hne.
Qed.

Lemma expect_on_failure {A} (code_string : ResolutionErrorCode → string)
  (callback : Callback A) (code : string) (error : JsError) :
  fails_with callback error →
  expectResolutionErrorCode code_string callback code
  = match error with
    | ResolutionError c _ => async (expect_toEqual (code_string c) code)
    | _ => Rejected error
    end.
Proof.
  unfold expectResolutionErrorCode, await.
  destruct callback as [p|call]; simpl; by intros ->.
Qed.

Lemma expect_on_completion {A} (code_string : ResolutionErrorCode → string)
  (callback : Callback A) (code : string) (v : A) :
  callback = CallbackPromise (Fulfilled v)
  ∨ callback = CallbackFunction (Return v) →
  expectResolutionErrorCode code_string callback code
  = Rejected (assertion_error "expect(received).toBeFalsy()").
Proof. by intros [-> | ->]. Qed.

Lemma callback_outcomes {A} (callback : Callback A) :
  (∃ error, fails_with callback error)
  ∨ (∃ v, callback = CallbackPromise (Fulfilled v)
          ∨ callback = CallbackFunction (Return v))
  ∨ callback = CallbackPromise Pending.
Proof. destruct callback as [[v|e|]|[v|e]]; simpl; eauto. Qed.

(** X11. [expectResolutionErrorCode(callback, code)] passes exactly when the
    callback fails with a [ResolutionError] whose code is [code].  An error
    of another class comes out unchanged; a [ResolutionError] of another
    code, and a callback that does not fail, make an assertion fail. *)
Theorem expectResolutionErrorCode_passes_iff {A}
  (code_string : ResolutionErrorCode → string)
  (callback : Callback A) (code : string) :
  (expectResolutionErrorCode code_string callback code = Fulfilled ()
   ↔ ∃ c context,
       fails_with callback (ResolutionError c context) ∧ code_string c = code)
  ∧ (∀ error,
       fails_with callback error →
       instanceof_ResolutionError error = false →
       expectResolutionErrorCode code_string callback code = Rejected error)
  ∧ (∀ c context,
       fails_with callback (ResolutionError c context) →
       code_string c ≠ code →
       expectResolutionErrorCode code_string callback code
       = Rejected (assertion_error "expect(received).toEqual(expected)"))
  ∧ (∀ v,
       callback = CallbackPromise (Fulfilled v)
       ∨ callback = CallbackFunction (Return v) →
       expectResolutionErrorCode code_string callback code
       = Rejected (assertion_error "expect(received).toBeFalsy()")).
Proof.
  split; [|split; [|split]].
  - split.
    + destruct (callback_outcomes callback) as [[error Hf]|[[v Hv]| ->]].
      * rewrite (expect_on_failure _ _ _ error Hf).
        destruct error as [c context| |]; [|done..].
        rewrite expect_toEqual_passes. intros Hc. by exists c, context.
      * by rewrite (expect_on_completion _ _ _ v Hv).
      * done.
    + intros (c & context & Hf & Hc).
      rewrite (expect_on_failure _ _ _ _ Hf). by apply expect_toEqual_passes.
  - intros error Hf Hclass. rewrite (expect_on_failure _ _ _ error Hf).
    by destruct error.
  - intros c context Hf Hne. rewrite (expect_on_failure _ _ _ _ Hf).
    by apply expect_toEqual_fails.
  - intros v. apply expect_on_completion.
Qed.

(** X12. On a domain that no configured backend supports, the helper
    passes with the code of [UnsupportedDomain] on the promise of each of
    [resolve], [addressOrThrow], [ipfsHash], [ipfsRedirect] and [email], and
    on a function calling [namehash] or [serviceName].  A function that
    returns the promise of [addressOrThrow] instead makes it fail: the
    helper does not await what a function returns. *)
Theorem unsupported_domain_expectations
  (code_string : ResolutionErrorCode → string) (this : t) (domain : string) :
  (∀ m, Some m ∈ methods this → NamingService.isSupportedDomain m domain = false) →
  let code := code_string UnsupportedDomain in
  expectResolutionErrorCode code_string
    (CallbackPromise (resolve this domain)) code = Fulfilled ()
  ∧ (∀ ticker,
       expectResolutionErrorCode code_string
         (CallbackPromise (addressOrThrow this domain ticker)) code = Fulfilled ())
  ∧ expectResolutionErrorCode code_string
      (CallbackPromise (ipfsHash this domain)) code = Fulfilled ()
  ∧ expectResolutionErrorCode code_string
      (CallbackPromise (ipfsRedirect this domain)) code = Fulfilled ()
  ∧ expectResolutionErrorCode code_string
      (CallbackPromise (email this domain)) code = Fulfilled ()
  ∧ expectResolutionErrorCode code_string
      (CallbackFunction (namehash this domain)) code = Fulfilled ()
  ∧ expectResolutionErrorCode code_string
      (CallbackFunction (serviceName this domain)) code = Fulfilled ()
  ∧ (∀ ticker,
       expectResolutionErrorCode code_string
         (CallbackFunction (Return (addressOrThrow this domain ticker))) code
       = Rejected (assertion_error "expect(received).toBeFalsy()")).
Proof.
  intros Hnone code. apply getNamingMethod_None in Hnone.
  unfold resolve, addressOrThrow, ipfsHash, ipfsRedirect, email, namehash,
    serviceName.
  rewrite (getNamingMethodOrThrow_None _ _ Hnone). simpl.
  unfold expectResolutionErrorCode, expect_toEqual, code. simpl.
  rewrite String.eqb_refl. repeat split.
Qed.

(** X13. The helper never passes on the promise of the non-throwing
    [address], whatever the code: where [address] is fulfilled the final
    assertion fails, and [address] is never rejected with a
    [ResolutionError]. *)
Theorem address_never_meets_expectation
  (code_string : ResolutionErrorCode → string)
  (this : t) (domain ticker code : string) :
  expectResolutionErrorCode code_string
    (CallbackPromise (address this domain ticker)) code
  = match address this domain ticker with
    | Fulfilled _ => Rejected (assertion_error "expect(received).toBeFalsy()")
    | Rejected error => Rejected error
    | Pending => Pending
    end
  ∧ expectResolutionErrorCode code_string
      (CallbackPromise (address this domain ticker)) code ≠ Fulfilled ().
Proof.
  unfold address, await.
  destruct (addressOrThrow this domain ticker) as [v|[c context|msg|name msg]|];
    simpl; by split.
Qed.

(** ** The further properties on the sample world *)

Lemma supported_in_network_is_supported_witness :
  isSupportedDomainInNetwork Sample.direct "brad.zil" = Return (JsBoolean true)
  ∧ isSupportedDomain Sample.direct "brad.zil" = Return true.
Proof.
  split; [reflexivity|].
  destruct (supported_in_network_is_supported Sample.direct "brad.zil")
    as (Htruthy & _).
  apply (Htruthy (JsBoolean true)); reflexivity.
Defined.

Lemma selected_backend_answers_witness :
  getNamingMethod Sample.direct "brad.zil"
  = Some (Sample.zns (Types.SourceBoolean true))
  ∧ addressOrThrow Sample.direct "brad.zil" "INVALID_CURRENCY_SYMBOL"
    = Rejected (ResolutionError UnspecifiedCurrency {[ "domain" := "brad.zil" ]})
  ∧ namehash Sample.direct "brad.zil" = Return "zns:brad.zil"
  ∧ serviceName Sample.direct "brad.zil" = Return "ZNS"
  ∧ resolve Sample.direct "brad.zil" = Fulfilled Sample.brad
  ∧ owner Sample.direct "brad.zil"
    = Fulfilled (Some "0x2d418942dce1afa02d0733a2000c71b371a6ac07")
  ∧ owner Sample.direct "sdncdoncvdinvcsdncs.zil" = Fulfilled None.
Proof.
  destruct (selected_backend_answers Sample.direct "brad.zil"
              (Sample.zns (Types.SourceBoolean true)) eq_refl)
    as (Haddress & Hhash & Hname & Hresolve & _ & _ & _ & Howner & _).
  destruct (selected_backend_answers Sample.direct "sdncdoncvdinvcsdncs.zil"
              (Sample.zns (Types.SourceBoolean true)) eq_refl)
    as (_ & _ & _ & _ & _ & _ & _ & _ & _ & Hnull & _).
  split; [reflexivity|].
  split; [exact (Haddress "INVALID_CURRENCY_SYMBOL")|].
  split; [exact Hhash|]. split; [exact Hname|].
  split; [apply Hresolve; reflexivity|].
  split; [apply Howner; [reflexivity|discriminate]|].
  apply Hnull. reflexivity.
Defined.

Lemma address_null_on_unsupported_domain_witness :
  (∀ m, Some m ∈ methods Sample.direct →
        NamingService.isSupportedDomain m "bogdangusiev.qq" = false)
  ∧ address Sample.direct "bogdangusiev.qq" "ZIL" = Fulfilled None.
Proof.
  assert (∀ m, Some m ∈ methods Sample.direct →
               NamingService.isSupportedDomain m "bogdangusiev.qq" = false)
    as Hnone.
  { apply unsupported_by_all. reflexivity. }
  split; [exact Hnone|].
  exact (address_null_on_unsupported_domain Sample.direct "bogdangusiev.qq" "ZIL"
           Hnone).
Defined.

Lemma owner_reported_is_backend_owner_witness :
  owner Sample.direct "brad.zil"
  = Fulfilled (Some "0x2d418942dce1afa02d0733a2000c71b371a6ac07")
  ∧ "0x2d418942dce1afa02d0733a2000c71b371a6ac07" ≠ "".
Proof.
  split; [reflexivity|].
  destruct (owner_reported_is_backend_owner Sample.direct "brad.zil"
              "0x2d418942dce1afa02d0733a2000c71b371a6ac07" eq_refl)
    as (Hnonempty & _).
  exact Hnonempty.
Defined.

Lemma selection_priority_witness :
  blockchain Sample.direct = true
  ∧ getNamingMethod Sample.direct "domain.eth"
    = Some (Ens.base (Sample.ens (Types.SourceBoolean true)))
  ∧ getNamingMethod Sample.direct "domain.crypto"
    = Some (Sample.cns (Types.SourceBoolean true))
  ∧ blockchain Sample.proxy = false
  ∧ getNamingMethod Sample.proxy "domain.eth" = Resolution.api Sample.proxy.
Proof.
  destruct (selection_priority Sample.direct "domain.eth") as (Hdirect & _).
  destruct (Hdirect eq_refl) as (Hens & _).
  destruct (selection_priority Sample.direct "domain.crypto") as (Hdirect' & _).
  destruct (Hdirect' eq_refl) as (_ & _ & Hcns & _).
  destruct (selection_priority Sample.proxy "domain.eth") as (_ & Hproxy).
  split; [reflexivity|].
  split; [apply (Hens (Sample.ens (Types.SourceBoolean true))); reflexivity|].
  split; [apply (Hcns (Sample.cns (Types.SourceBoolean true))); reflexivity|].
  split; [reflexivity|]. exact (Hproxy eq_refl).
Defined.

Lemma constructor_modes_exclusive_witness :
  constructor (backends := Sample.backends) None ∅
  = Some (Sample.direct, {[ 1%positive := with_defaults ∅ ]})
  ∧ Resolution.api Sample.direct = None
  ∧ Some (Sample.cns (Types.SourceBoolean true)) ∈ methods Sample.direct.
Proof.
  assert (constructor (backends := Sample.backends) None ∅
          = Some (Sample.direct, {[ 1%positive := with_defaults ∅ ]})) as Hc
    by (vm_compute; reflexivity).
  split; [exact Hc|].
  destruct (constructor_modes_exclusive (backends := Sample.backends) _ _ _ _ Hc)
    as (Hmode & Hheld).
  split; [exact Hmode|].
  apply Hheld. right. right. left. reflexivity.
Defined.

Lemma all_protocols_disabled_no_fallback_witness :
  ∃ this,
    constructor (backends := Sample.backends)
      (Some {| opt_blockchain := Some (Types.BlockchainObject 1);
               opt_api := None |})
      {[ 1%positive := {[ "ens" := Types.SourceBoolean false;
                          "zns" := Types.SourceBoolean false;
                          "cns" := Types.SourceBoolean false ]} ]}
    = Some (this,
            {[ 1%positive := {[ "ens" := Types.SourceBoolean false;
                                "zns" := Types.SourceBoolean false;
                                "cns" := Types.SourceBoolean false ]} ]})
    ∧ isSupportedDomain this "brad.zil" = Return false.
Proof.
  assert (({[ 1%positive := {[ "ens" := Types.SourceBoolean false;
                               "zns" := Types.SourceBoolean false;
                               "cns" := Types.SourceBoolean false ]} ]} : Heap)
          !! 1%positive
          = Some {[ "ens" := Types.SourceBoolean false;
                    "zns" := Types.SourceBoolean false;
                    "cns" := Types.SourceBoolean false ]}) as Hl by reflexivity.
  destruct (all_protocols_disabled_no_fallback (backends := Sample.backends)
              _ 1%positive _ None Hl eq_refl eq_refl eq_refl)
    as (this & Hc & _ & _ & Hall).
  exists this. split; [exact Hc|]. apply (Hall "brad.zil").
Defined.

Lemma constructor_idempotent_on_object_witness :
  ({[ 1%positive := Sample.partial ]} : Heap) !! 1%positive = Some Sample.partial
  ∧ ∃ this h1,
      constructor (backends := Sample.backends)
        (Some {| opt_blockchain := Some (Types.BlockchainObject 1);
                 opt_api := None |})
        {[ 1%positive := Sample.partial ]}
      = Some (this, h1)
      ∧ constructor (backends := Sample.backends)
          (Some {| opt_blockchain := Some (Types.BlockchainObject 1);
                   opt_api := None |}) h1
        = Some (this, h1).
Proof.
  assert (({[ 1%positive := Sample.partial ]} : Heap) !! 1%positive
          = Some Sample.partial) as Hl by reflexivity.
  split; [exact Hl|].
  destruct (constructor_idempotent_on_object (backends := Sample.backends)
              _ 1%positive Sample.partial None Hl)
    as (this & h1 & o1 & Hfirst & _ & _ & _ & _ & Hsecond).
  exists this, h1. split; [exact Hfirst|exact Hsecond].
Defined.

Lemma constructor_keeps_present_fields_witness :
  ∃ this h' o',
    constructor (backends := Sample.backends)
      (Some {| opt_blockchain := Some (Types.BlockchainObject 1);
               opt_api := None |})
      {[ 1%positive := Sample.partial ]}
    = Some (this, h')
    ∧ h' !! 1%positive = Some o'
    ∧ o' !! "ens" = Some (Types.SourceBoolean false).
Proof.
  assert (({[ 1%positive := Sample.partial ]} : Heap) !! 1%positive
          = Some Sample.partial) as Hl by reflexivity.
  assert (constructor (backends := Sample.backends)
            (Some {| opt_blockchain := Some (Types.BlockchainObject 1);
                     opt_api := None |})
            {[ 1%positive := Sample.partial ]}
          = Some (direct_instance (backends := Sample.backends) Sample.partial,
                  <[1%positive := with_defaults Sample.partial]>
                    {[ 1%positive := Sample.partial ]})) as Hc
    by (vm_compute; reflexivity).
  destruct (constructor_keeps_present_fields (backends := Sample.backends)
              _ _ _ _ 1%positive Sample.partial Hc Hl)
    as ((o' & Ho' & Hkept) & _).
  eexists _, _, o'. split; [exact Hc|]. split; [exact Ho'|].
  apply Hkept. reflexivity.
Defined.

Lemma expectResolutionErrorCode_passes_iff_witness :
  fails_with (CallbackFunction (namehash Sample.direct "something.hello.com"))
    (ResolutionError UnsupportedDomain {[ "domain" := "something.hello.com" ]})
  ∧ expectResolutionErrorCode code_name
      (CallbackFunction (namehash Sample.direct "something.hello.com"))
      "UnsupportedDomain"
    = Fulfilled ()
  ∧ expectResolutionErrorCode code_name
      (CallbackPromise (addressOrThrow Sample.direct "brad.zil" "ZIL"))
      "UnsupportedDomain"
    = Rejected (assertion_error "expect(received).toBeFalsy()")
  ∧ expectResolutionErrorCode code_name
      (CallbackPromise (owner Sample.direct "bogdangusiev.qq"))
      "UnsupportedDomain"
    = Rejected (TypeError "Cannot read property 'owner' of undefined").
Proof.
  split; [reflexivity|]. split; [|split].
  - apply (expectResolutionErrorCode_passes_iff code_name
             (CallbackFunction (namehash Sample.direct "something.hello.com"))
             "UnsupportedDomain").
    exists UnsupportedDomain, {[ "domain" := "something.hello.com" ]}.
    split; reflexivity.
  - destruct (expectResolutionErrorCode_passes_iff code_name
                (CallbackPromise (addressOrThrow Sample.direct "brad.zil" "ZIL"))
                "UnsupportedDomain")
      as (_ & _ & _ & Hcompletes).
    apply (Hcompletes "zil1yu5u4hegy9v3xgluweg4en54zm8f8auwxu0xxj").
    left. reflexivity.
  - destruct (expectResolutionErrorCode_passes_iff code_name
                (CallbackPromise (owner Sample.direct "bogdangusiev.qq"))
                "UnsupportedDomain")
      as (_ & Hother & _).
    apply Hother; reflexivity.
Defined.

Lemma unsupported_domain_expectations_witness :
  (∀ m, Some m ∈ methods Sample.direct →
        NamingService.isSupportedDomain m "bogdangusiev.qq" = false)
  ∧ expectResolutionErrorCode code_name
      (CallbackPromise (addressOrThrow Sample.direct "bogdangusiev.qq" "ZIL"))
      "UnsupportedDomain"
    = Fulfilled ().
Proof.
  assert (∀ m, Some m ∈ methods Sample.direct →
               NamingService.isSupportedDomain m "bogdangusiev.qq" = false)
    as Hnone.
  { apply unsupported_by_all. reflexivity. }
  split; [exact Hnone|].
  destruct (unsupported_domain_expectations code_name Sample.direct
              "bogdangusiev.qq" Hnone)
    as (_ & Haddress & _).
  exact (Haddress "ZIL").
Defined.
